(** * The Creem webhook reconciler

    A shallow embedding of [src/app/api/webhook/creem/route.ts] (the [POST]
    handler) and of the payment-history query [hasSuccessfulPaymentByUserId],
    together with the properties the specification states about them, and
    of the display formatters of [src/lib/formatter.ts].

    The handler is an orchestration over three store services.  It is
    embedded as a computation in a small monad that records every store call
    it issues, in order, and that propagates JavaScript exceptions up to the
    single [try]/[catch] of [POST].  What the stores answer, and whether a
    call throws, is supplied by an environment.

    Modelling conventions:
    - JSON numbers and the numbers of the stored rows are integers, kept
      exact ([Z]); the code computes with doubles, which hold the safe
      integers exactly, and statements about the value of a number say so
      ([safe_integer], [safe_number]).  Strings are ASCII.
    - A [Date] is its time value in milliseconds since the epoch, inside the
      range where [TimeClip] is the identity.
    - The number [parseFloat] reads is kept symbolic (the string it is
      read from is recorded). *)

From Stdlib Require Import ZArith String Ascii List Bool Lia.
From Stdlib Require Import DecimalString DecimalNat DecimalPos.
Import ListNotations.

Set Warnings "-register-all".

Local Open Scope Z_scope.
Local Open Scope string_scope.

(* ================================================================== *)
(** ** JavaScript values *)
(* ================================================================== *)

(** The values [req.json()] can produce, plus [undefined], which property
    access produces.  The members of an object are listed in source order;
    a later duplicate overrides an earlier one, as [JSON.parse] does. *)
Inductive JsVal : Type :=
| VUndefined
| VNull
| VBool (b : bool)
| VNum (n : Z)
| VStr (s : string)
| VArr (elems : list JsVal)
| VObj (members : list (string * JsVal)).

(** The result of the numeric built-ins. *)
Inductive JsNum : Type :=
| NaN
| Num (n : Z).

(** [a + b] on numbers: the exact sum, which is the sum of the code when
    both numbers and the sum are safe integers. *)
Definition num_add (a b : JsNum) : JsNum :=
  match a, b with
  | Num x, Num y => Num (x + y)
  | _, _ => NaN
  end.

Definition truthy (v : JsVal) : bool :=
  match v with
  | VUndefined | VNull => false
  | VBool b => b
  | VNum n => negb (Z.eqb n 0)
  | VStr s => negb (String.eqb s "")
  | VArr _ | VObj _ => true
  end.

(** [a || b] *)
Definition js_or (a b : JsVal) : JsVal := if truthy a then a else b.

(** [v === "s"] *)
Definition strict_eq_str (v : JsVal) (s : string) : bool :=
  match v with
  | VStr t => String.eqb t s
  | _ => false
  end.

(** Whether an object has an own member named [k]. *)
Definition has_own (k : string) (members : list (string * JsVal)) : bool :=
  existsb (fun m => String.eqb (fst m) k) members.

(** ToString, as [parseInt] and [parseFloat] apply it to their argument;
    [None] when the conversion throws a TypeError.  No member of an object
    parsed from JSON is callable: an object with an own member [toString]
    has no method to convert it ([Object.prototype.valueOf] returns the
    object itself), and the conversion throws; any other object is printed
    by [Object.prototype.toString].  An array is rendered as [join(",")]
    does: [null] and [undefined] elements are empty, and an element that
    cannot be converted makes the conversion of the array throw.  A number
    is printed in decimal, as the code prints the safe integers. *)
Fixpoint ToString (v : JsVal) : option string :=
  match v with
  | VUndefined => Some "undefined"
  | VNull => Some "null"
  | VBool true => Some "true"
  | VBool false => Some "false"
  | VNum n => Some (NilZero.string_of_int (Z.to_int n))
  | VStr s => Some s
  | VArr elems =>
      let elem (x : JsVal) : option string :=
        match x with
        | VUndefined | VNull => Some ""
        | _ => ToString x
        end in
      (fix join (l : list JsVal) : option string :=
         match l with
         | [] => Some ""
         | [x] => elem x
         | x :: rest =>
             match elem x, join rest with
             | Some first, Some others => Some (first ++ "," ++ others)
             | _, _ => None
             end
         end) elems
  | VObj members =>
      if has_own "toString" members then None else Some "[object Object]"
  end.

(* ================================================================== *)
(** ** [parseInt] *)
(* ================================================================== *)

Definition is_white_space (c : ascii) : bool :=
  let n := nat_of_ascii c in
  ((9 <=? n) && (n <=? 13) || (n =? 32))%nat.

Fixpoint trim_start (s : string) : string :=
  match s with
  | String c rest => if is_white_space c then trim_start rest else s
  | EmptyString => s
  end.

Definition digit_value (c : ascii) : option Z :=
  let n := Z.of_nat (nat_of_ascii c) in
  if (48 <=? n)%Z && (n <=? 57)%Z then Some (n - 48)
  else if (97 <=? n)%Z && (n <=? 122)%Z then Some (n - 87)
  else if (65 <=? n)%Z && (n <=? 90)%Z then Some (n - 55)
  else None.

(** The longest prefix of radix-[R] digits, read as a number; [None] when
    that prefix is empty. *)
Fixpoint radix_prefix (R : Z) (s : string) (acc : option Z) : option Z :=
  match s with
  | EmptyString => acc
  | String c rest =>
      match digit_value c with
      | Some d =>
          if (d <? R)%Z
          then radix_prefix R rest
                 (Some (R * match acc with Some a => a | None => 0 end + d))
          else acc
      | None => acc
      end
  end.

(** [parseInt(string)] with no radix argument: leading white space, an
    optional sign, an optional [0x]/[0X] prefix, then digits.  The result
    is the integer read, exactly; the code rounds it to a double, which
    changes nothing when it is a safe integer. *)
Definition parseInt_string (input : string) : JsNum :=
  let trimmed := trim_start input in
  let '(sign, unsigned) :=
    match trimmed with
    | String "-" rest => (-1, rest)
    | String "+" rest => (1, rest)
    | _ => (1, trimmed)
    end in
  let '(R, digits) :=
    match unsigned with
    | String "0" (String "x" rest) => (16, rest)
    | String "0" (String "X" rest) => (16, rest)
    | _ => (10, unsigned)
    end in
  match radix_prefix R digits None with
  | None => NaN
  | Some mathInt => Num (sign * mathInt)
  end.

(** [parseInt(v)]; [None] when converting [v] to a string throws. *)
Definition parseInt (v : JsVal) : option JsNum :=
  option_map parseInt_string (ToString v).

(** The number [parseFloat] reads from a string, uninterpreted. *)
Inductive JsFloat : Type :=
| float_of_string (s : string).

(** [parseFloat(v)]; [None] when converting [v] to a string throws. *)
Definition parseFloat (v : JsVal) : option JsFloat :=
  option_map float_of_string (ToString v).

(* ================================================================== *)
(** ** Dates *)
(* ================================================================== *)

(** A [Date] object is represented by its time value. *)
Abbreviation Date := Z (only parsing).

Definition msPerDay : Z := 86400000.
Definition Day (t : Z) : Z := t / msPerDay.
Definition TimeWithinDay (t : Z) : Z := t mod msPerDay.

(** Day number of the first day of month [m] (0-based) of year [y], in the
    proleptic Gregorian calendar, counted from 1 January 1970. *)
Definition DayFromYearMonth (y m : Z) : Z :=
  let y' := if (m <? 2)%Z then y - 1 else y in
  let era := y' / 400 in
  let yoe := y' - era * 400 in
  let mp := if (m <? 2)%Z then m + 10 else m - 2 in
  let doy := (153 * mp + 2) / 5 in
  let doe := yoe * 365 + yoe / 4 - yoe / 100 + doy in
  era * 146097 + doe - 719468.

(** Year, month (0-based) and day of the month (1-based) of a day number. *)
Definition CivilFromDay (day : Z) : Z * Z * Z :=
  let z := day + 719468 in
  let era := z / 146097 in
  let doe := z - era * 146097 in
  let yoe := (doe - doe / 1460 + doe / 36524 - doe / 146096) / 365 in
  let doy := doe - (365 * yoe + yoe / 4 - yoe / 100) in
  let mp := (5 * doy + 2) / 153 in
  let d := doy - (153 * mp + 2) / 5 + 1 in
  let m := if (mp <? 10)%Z then mp + 2 else mp - 10 in
  let y := yoe + era * 400 + (if (m <? 2)%Z then 1 else 0) in
  (y, m, d).

Definition YearFromTime (t : Z) : Z := fst (fst (CivilFromDay (Day t))).
Definition MonthFromTime (t : Z) : Z := snd (fst (CivilFromDay (Day t))).
Definition DateFromTime (t : Z) : Z := snd (CivilFromDay (Day t)).

(** MakeDay and MakeDate of ECMA-262: the month may run past December and
    the day past the end of the month; both carry over. *)
Definition MakeDay (year month date : Z) : Z :=
  let ym := year + month / 12 in
  let mn := month mod 12 in
  DayFromYearMonth ym mn + date - 1.

Definition MakeDate (day time : Z) : Z := day * msPerDay + time.

Section LocalTime.
(** The offset of local time, as the host defines it: [LocalTZA t true]
    for a UTC time [t], [LocalTZA t false] for a local time [t]. *)
Variable LocalTZA : Z -> bool -> Z.

Definition LocalTime (t : Z) : Z := t + LocalTZA t true.
Definition UTC (t : Z) : Z := t - LocalTZA t false.

Definition getMonth (d : Date) : Z := MonthFromTime (LocalTime d).
Definition getFullYear (d : Date) : Z := YearFromTime (LocalTime d).

(** [d.setMonth(month)]: the new time value of [d]. *)
Definition setMonth (d : Date) (month : Z) : Date :=
  let t := LocalTime d in
  UTC (MakeDate (MakeDay (YearFromTime t) month (DateFromTime t))
                (TimeWithinDay t)).

(** [d.setFullYear(year)]: the new time value of [d]. *)
Definition setFullYear (d : Date) (year : Z) : Date :=
  let t := LocalTime d in
  UTC (MakeDate (MakeDay year (MonthFromTime t) (DateFromTime t))
                (TimeWithinDay t)).
End LocalTime.

Definition utc_host : Z -> bool -> Z := fun _ _ => 0.

(* ================================================================== *)
(** ** Records exchanged with the store services *)
(* ================================================================== *)

Inductive UserSubscriptionStatusEnum : Type :=
| ACTIVE
| CANCELLED
| EXPIRED.

(** A stored date column may be null: [None]. *)
Module CreditUsage.
Record t : Type := make {
  user_uuid : JsVal;
  credit_used : JsNum;
  credit_total : JsNum;
  period_start : option Date;
  period_end : option Date
}.
End CreditUsage.

(** The argument of [createUserSubscription] and [updateUserSubscription].
    An update may leave properties out: [None]. *)
Module UserSubscription.
Record t : Type := make {
  user_uuid : JsVal;
  subscription_plan_id : option JsNum;
  status : UserSubscriptionStatusEnum;
  current_period_start : option Date;
  current_period_end : option Date;
  stripe_subscription_id : JsVal;
  stripe_customer_id : option JsVal
}.
End UserSubscription.

Module PaymentHistory.
Record t : Type := make {
  user_uuid : JsVal;
  subscription_plan_id : JsNum;
  amount : JsFloat;
  interval : JsVal;
  payment_status : string;
  payment_intent_id : JsVal
}.
End PaymentHistory.

(** The store services the handler imports and calls. *)
Inductive Call : Type :=
| getCreditUsageByUserId (userId : JsVal)
| createCreditUsage (creditUsage : CreditUsage.t)
| updateCreditUsage (creditUsage : CreditUsage.t)
| getUserSubscriptionByUserId (userId : JsVal)
| createUserSubscription (userSubscription : UserSubscription.t)
| updateUserSubscription (userSubscription : UserSubscription.t)
| createPaymentHistory (paymentHistory : PaymentHistory.t).

(** Exceptions a run of the handler can meet. *)
Inductive Error : Type :=
| SyntaxError                      (* req.json() on a body that is not JSON *)
| TypeError (property : string)    (* reading a property of undefined/null,
                                      or converting an object that has no
                                      primitive value *)
| StoreError (call : Call).        (* a store service threw *)

Inductive Result (A : Type) : Type :=
| Ok (a : A)
| Throw (e : Error).
Arguments Ok {A} a.
Arguments Throw {A} e.

Definition own_property (k : string) (members : list (string * JsVal)) : JsVal :=
  fold_left (fun acc m => if String.eqb (fst m) k then snd m else acc)
            members VUndefined.

Definition nullish (v : JsVal) : bool :=
  match v with
  | VUndefined | VNull => true
  | _ => false
  end.

(** The value of [v.k] when [v] is neither [undefined] nor [null].  None of
    the property names the handler reads is defined on a built-in prototype,
    so on a string, number, boolean or array the access yields [undefined]. *)
Definition prop (v : JsVal) (k : string) : JsVal :=
  match v with
  | VObj members => own_property k members
  | _ => VUndefined
  end.

(** [v.k] *)
Definition get_prop (v : JsVal) (k : string) : Result JsVal :=
  if nullish v then Throw (TypeError k) else Ok (prop v k).

(** [v.k1.k2...kn], evaluated left to right. *)
Fixpoint field (v : JsVal) (path : list string) : Result JsVal :=
  match path with
  | [] => Ok v
  | k :: rest =>
      match get_prop v k with
      | Ok v' => field v' rest
      | Throw e => Throw e
      end
  end.

(** What [parseInt] and [parseFloat] throw on a value they cannot convert
    to a string. *)
Definition not_primitive : Error :=
  TypeError "Cannot convert object to primitive value".

(** The outcome of a conversion: its result, or the TypeError. *)
Definition converted {A} (r : option A) : Result A :=
  match r with
  | Some a => Ok a
  | None => Throw not_primitive
  end.

(** [v?.k] *)
Definition opt_prop (v : JsVal) (k : string) : JsVal :=
  if nullish v then VUndefined else prop v k.

(** [v.k1...kn?.k] *)
Definition opt_field (v : JsVal) (path : list string) (k : string)
  : Result JsVal :=
  match field v path with
  | Ok v' => Ok (opt_prop v' k)
  | Throw e => Throw e
  end.

(** What surrounds one run of the handler.  Within one run no store call is
    issued twice, so answers and failures indexed by the call cover every
    behaviour of the stores. *)
Record Env : Type := {
  (** the value of [new Date()] *)
  now : Date;
  LocalTZA : Z -> bool -> Z;
  (** the row [getCreditUsageByUserId] resolves to; [None] is no row *)
  credit_usage_of : JsVal -> option CreditUsage.t;
  (** the rows [getUserSubscriptionByUserId] resolves to; [None] is
      undefined/null *)
  user_subscriptions_of : JsVal -> option (list UserSubscription.t);
  (** the store call throws instead of resolving *)
  rejects : Call -> bool
}.

(* ================================================================== *)
(** ** The handler monad: a log of store calls, and exceptions *)
(* ================================================================== *)

Definition M (A : Type) : Type := list Call -> list Call * Result A.

Definition ret {A} (a : A) : M A := fun log => (log, Ok a).

Definition bind {A B} (m : M A) (f : A -> M B) : M B :=
  fun log =>
    match m log with
    | (log', Ok a) => f a log'
    | (log', Throw e) => (log', Throw e)
    end.

Definition throw {A} (e : Error) : M A := fun log => (log, Throw e).

Definition lift {A} (r : Result A) : M A := fun log => (log, r).

(** [await c]: issue the store call [c]; it resolves to [answer] or throws. *)
Definition await {A} (env : Env) (c : Call) (answer : A) : M A :=
  fun log =>
    ((log ++ [c])%list, if rejects env c then Throw (StoreError c) else Ok answer).

(** [if (cond) { body }] *)
Definition when (cond : bool) (body : M unit) : M unit :=
  if cond then body else ret tt.

Declare Scope handler_scope.
Delimit Scope handler_scope with handler.
Notation "x <- m ;; k" := (bind m (fun x => k))
  (at level 61, m at next level, right associativity) : handler_scope.
Notation "m ;; k" := (bind m (fun _ => k))
  (at level 61, right associativity) : handler_scope.
Local Open Scope handler_scope.

(* ================================================================== *)
(** ** The route *)
(* ================================================================== *)

Module Response.
Record t : Type := make {
  status : Z;
  body : JsVal
}.
End Response.

(** [NextResponse.json(body)] and [NextResponse.json(body, {status})] *)
Definition NextResponse_json (body : JsVal) (init : option Z) : Response.t :=
  Response.make (match init with Some s => s | None => 200 end) body.

(** The request: what [req.json()] resolves to, [None] when the body is not
    JSON and the call throws. *)
Record NextRequest : Type := {
  json : option JsVal
}.

Section Handler.
Variable env : Env.

Let currentDate : Date := now env.

(** Lines 109-153: one-time payment, [checkout.completed]. *)
Definition checkout_completed (webhook : JsVal) : M unit :=
  userId <- lift (field webhook ["object"; "request_id"]) ;;
  productId <- lift (field webhook ["object"; "product"; "id"]) ;;
  providerCustomerId <- lift (field webhook ["object"; "customer"; "id"]) ;;
  let newPeriodEnd : Date :=
    setMonth (LocalTZA env) currentDate
             (getMonth (LocalTZA env) currentDate + 1) in
  credit_usage_from_db <-
    await env (getCreditUsageByUserId userId) (credit_usage_of env userId) ;;
  (* line 122 reads [credit_usage_from_db.period_end] before the test of
     line 126 *)
  existing_end <-
    match credit_usage_from_db with
    | None => throw (TypeError "period_end")
    | Some row => ret (CreditUsage.period_end row)
    end ;;
  let newPeriodEnd : Date :=
    match existing_end with
    | Some e => if (e >? newPeriodEnd)%Z then e else newPeriodEnd
    | None => newPeriodEnd
    end in
  match credit_usage_from_db with
  | None =>
      credit <- lift (opt_field webhook ["object"; "metadata"] "credit") ;;
      credit_total <- lift (converted (parseInt (js_or credit (VStr "100")))) ;;
      await env (createCreditUsage {|
        CreditUsage.user_uuid := userId;
        CreditUsage.credit_used := Num 0;
        CreditUsage.credit_total := credit_total;
        CreditUsage.period_start := Some currentDate;
        CreditUsage.period_end := Some newPeriodEnd |}) tt
  | Some row =>
      credit <- lift (opt_field webhook ["object"; "metadata"] "credit") ;;
      bought <- lift (converted (parseInt (js_or credit (VStr "100")))) ;;
      await env (updateCreditUsage {|
        CreditUsage.user_uuid := userId;
        CreditUsage.credit_used := CreditUsage.credit_used row;
        CreditUsage.credit_total :=
          num_add (CreditUsage.credit_total row) bought;
        CreditUsage.period_start := CreditUsage.period_start row;
        CreditUsage.period_end := Some newPeriodEnd |}) tt
  end ;;
  (* the members of the argument are evaluated in source order: a
     conversion that throws stops the run before the call *)
  subscriptionPlanId <-
    lift (opt_field webhook ["object"; "metadata"] "subscriptionPlanId") ;;
  subscription_plan_id <-
    lift (converted (parseInt (js_or subscriptionPlanId (VStr "1")))) ;;
  amount <- lift (opt_field webhook ["object"; "metadata"] "amount") ;;
  amount <- lift (converted (parseFloat (js_or amount (VStr "0")))) ;;
  interval <- lift (opt_field webhook ["object"; "metadata"] "interval") ;;
  id <- lift (field webhook ["object"; "id"]) ;;
  await env (createPaymentHistory {|
    PaymentHistory.user_uuid := userId;
    PaymentHistory.subscription_plan_id := subscription_plan_id;
    PaymentHistory.amount := amount;
    PaymentHistory.interval := js_or interval (VStr "month");
    PaymentHistory.payment_status := "completed";
    PaymentHistory.payment_intent_id := id |}) tt.

(** Lines 175-236: [subscription.paid]. *)
Definition subscription_paid (webhook : JsVal) : M unit :=
  userId <- lift (field webhook ["object"; "metadata"; "userId"]) ;;
  productId <- lift (field webhook ["object"; "product"; "id"]) ;;
  providerCustomerId <- lift (field webhook ["object"; "customer"; "id"]) ;;
  interval <- lift (opt_field webhook ["object"; "metadata"] "interval") ;;
  let newPeriodEnd : Date :=
    if strict_eq_str interval "year"
    then setFullYear (LocalTZA env) currentDate
                     (getFullYear (LocalTZA env) currentDate + 1)
    else setMonth (LocalTZA env) currentDate
                  (getMonth (LocalTZA env) currentDate + 1) in
  existingSubscription <-
    await env (getUserSubscriptionByUserId userId)
              (user_subscriptions_of env userId) ;;
  (* both branches of line 194 build the same argument; its members are
     evaluated before the call, and [parseInt] may throw *)
  subscriptionPlanId <-
    lift (opt_field webhook ["object"; "metadata"] "subscriptionPlanId") ;;
  subscription_plan_id <-
    lift (converted (parseInt (js_or subscriptionPlanId (VStr "1")))) ;;
  id <- lift (field webhook ["object"; "id"]) ;;
  let userSubscription := {|
    UserSubscription.user_uuid := userId;
    UserSubscription.subscription_plan_id := Some subscription_plan_id;
    UserSubscription.status := ACTIVE;
    UserSubscription.current_period_start := Some currentDate;
    UserSubscription.current_period_end := Some newPeriodEnd;
    UserSubscription.stripe_subscription_id := id;
    UserSubscription.stripe_customer_id := Some providerCustomerId |} in
  match existingSubscription with
  | None | Some [] => await env (createUserSubscription userSubscription) tt
  | Some (_ :: _) => await env (updateUserSubscription userSubscription) tt
  end ;;
  credit_usage_from_db <-
    await env (getCreditUsageByUserId userId) (credit_usage_of env userId) ;;
  credit <- lift (opt_field webhook ["object"; "metadata"] "credit") ;;
  credit_total <- lift (converted (parseInt (js_or credit (VStr "1000")))) ;;
  match credit_usage_from_db with
  | None =>
      await env (createCreditUsage {|
        CreditUsage.user_uuid := userId;
        CreditUsage.credit_used := Num 0;
        CreditUsage.credit_total := credit_total;
        CreditUsage.period_start := Some currentDate;
        CreditUsage.period_end := Some newPeriodEnd |}) tt
  | Some _ =>
      await env (updateCreditUsage {|
        CreditUsage.user_uuid := userId;
        CreditUsage.credit_used := Num 0;
        CreditUsage.credit_total := credit_total;
        CreditUsage.period_start := Some currentDate;
        CreditUsage.period_end := Some newPeriodEnd |}) tt
  end.

(** Lines 238-258: [subscription.canceled] and [subscription.expired]
    differ in the status they write only. *)
Definition subscription_ended (status : UserSubscriptionStatusEnum)
           (webhook : JsVal) : M unit :=
  userId <- lift (field webhook ["object"; "metadata"; "userId"]) ;;
  id <- lift (field webhook ["object"; "id"]) ;;
  await env (updateUserSubscription {|
    UserSubscription.user_uuid := userId;
    UserSubscription.subscription_plan_id := None;
    UserSubscription.status := status;
    UserSubscription.current_period_start := None;
    UserSubscription.current_period_end := None;
    UserSubscription.stripe_subscription_id := id;
    UserSubscription.stripe_customer_id := None |}) tt.

(** Lines 95-259: the body of the [try] block. *)
Definition try_block (req : NextRequest) : M unit :=
  webhook <- match json req with
             | Some v => ret v
             | None => throw SyntaxError
             end ;;
  billing_type <- lift (field webhook ["object"; "product"; "billing_type"]) ;;
  let isSubscription := strict_eq_str billing_type "recurring" in
  (* [webhook.eventType] is read by each test below; the read cannot throw
     once [webhook.object] has been read, and is done once here *)
  eventType <- lift (field webhook ["eventType"]) ;;
  if negb isSubscription then
    when (strict_eq_str eventType "checkout.completed")
         (checkout_completed webhook)
  else
    when (strict_eq_str eventType "subscription.paid")
         (subscription_paid webhook) ;;
    when (strict_eq_str eventType "subscription.canceled")
         (subscription_ended CANCELLED webhook) ;;
    when (strict_eq_str eventType "subscription.expired")
         (subscription_ended EXPIRED webhook).
End Handler.

Definition success_body : JsVal :=
  VObj [("success", VBool true);
        ("message", VStr "Webhook received successfully")].

Definition failure_body : JsVal :=
  VObj [("error", VStr "Webhook processing failed")].

(** What one invocation of the route does: the store calls it issued, what
    it wrote to the error log, and the response it returned. *)
Record Outcome : Type := {
  calls : list Call;
  logged : option Error;
  response : Response.t
}.

(** [export async function POST(req)] *)
Definition POST (env : Env) (req : NextRequest) : Outcome :=
  match try_block env req [] with
  | (log, Ok _) =>
      {| calls := log;
         logged := None;
         response := NextResponse_json success_body None |}
  | (log, Throw error) =>
      {| calls := log;
         logged := Some error;
         response := NextResponse_json failure_body (Some 500) |}
  end.

(* ================================================================== *)
(** ** Reading an event *)
(* ================================================================== *)

(** The request whose body parses to [webhook]. *)
Definition request (webhook : JsVal) : NextRequest := {| json := Some webhook |}.

Definition eventType_of (w : JsVal) : JsVal := prop w "eventType".
Definition object_of (w : JsVal) : JsVal := prop w "object".
Definition product_of (w : JsVal) : JsVal := prop (object_of w) "product".
Definition customer_of (w : JsVal) : JsVal := prop (object_of w) "customer".
Definition metadata_of (w : JsVal) : JsVal := prop (object_of w) "metadata".
Definition billing_type_of (w : JsVal) : JsVal := prop (product_of w) "billing_type".
Definition request_id_of (w : JsVal) : JsVal := prop (object_of w) "request_id".
Definition object_id_of (w : JsVal) : JsVal := prop (object_of w) "id".
Definition customer_id_of (w : JsVal) : JsVal := prop (customer_of w) "id".
(** [webhook.object.metadata?.k] *)
Definition metadata_field (w : JsVal) (k : string) : JsVal :=
  opt_prop (metadata_of w) k.

(** [webhook.object.product] can be read: the event and its [object] are
    objects and [product] is neither missing nor null. *)
Definition has_product (w : JsVal) : bool :=
  negb (nullish w) && negb (nullish (object_of w))
  && negb (nullish (product_of w)).

Definition has_customer (w : JsVal) : bool := negb (nullish (customer_of w)).
Definition has_metadata (w : JsVal) : bool := negb (nullish (metadata_of w)).

Definition is_recurring (w : JsVal) : bool :=
  has_product w && strict_eq_str (billing_type_of w) "recurring".

Definition is_one_time (w : JsVal) : bool :=
  has_product w && negb (strict_eq_str (billing_type_of w) "recurring").

(** The user a store call is about. *)
Definition call_user (c : Call) : JsVal :=
  match c with
  | getCreditUsageByUserId userId => userId
  | createCreditUsage cu | updateCreditUsage cu => CreditUsage.user_uuid cu
  | getUserSubscriptionByUserId userId => userId
  | createUserSubscription us | updateUserSubscription us =>
      UserSubscription.user_uuid us
  | createPaymentHistory ph => PaymentHistory.user_uuid ph
  end.

(** "now + 1 month" and "now + 1 year", as the handler computes them. *)
Definition one_month_later (env : Env) : Date :=
  setMonth (LocalTZA env) (now env) (getMonth (LocalTZA env) (now env) + 1).

Definition one_year_later (env : Env) : Date :=
  setFullYear (LocalTZA env) (now env)
              (getFullYear (LocalTZA env) (now env) + 1).

Definition success_response : Response.t := Response.make 200 success_body.
Definition failure_response : Response.t := Response.make 500 failure_body.

(* ================================================================== *)
(** ** What the handler writes on a subscription payment *)
(* ================================================================== *)

(** The period end [subscription_paid] computes. *)
Definition subscription_period_end (env : Env) (w : JsVal) : Date :=
  if strict_eq_str (metadata_field w "interval") "year"
  then one_year_later env
  else one_month_later env.

(** The subscription record [subscription_paid] writes, for the plan id it
    parsed. *)
Definition paid_subscription (env : Env) (w : JsVal) (plan : JsNum)
  : UserSubscription.t :=
  {| UserSubscription.user_uuid := metadata_field w "userId";
     UserSubscription.subscription_plan_id := Some plan;
     UserSubscription.status := ACTIVE;
     UserSubscription.current_period_start := Some (now env);
     UserSubscription.current_period_end := Some (subscription_period_end env w);
     UserSubscription.stripe_subscription_id := object_id_of w;
     UserSubscription.stripe_customer_id := Some (customer_id_of w) |}.


(* ================================================================== *)
(** ** Events with a metadata field filled in *)
(* ================================================================== *)

(** [v] with the member [k: x] added after the members it has; a value
    that is not an object is replaced by the object [{k: x}]. *)
Definition set_prop (v : JsVal) (k : string) (x : JsVal) : JsVal :=
  match v with
  | VObj members => VObj (members ++ [(k, x)])
  | _ => VObj [(k, x)]
  end.

(** The event [w] with [object.metadata.k] set to [x]. *)
Definition with_metadata_field (w : JsVal) (k : string) (x : JsVal) : JsVal :=
  set_prop w "object"
    (set_prop (object_of w) "metadata" (set_prop (metadata_of w) k x)).

(** The defaults the handler substitutes, by metadata field: the credit
    depends on the branch the event takes. *)
Definition metadata_defaults (w : JsVal) : list (string * string) :=
  [("credit", if is_recurring w then "1000" else "100");
   ("subscriptionPlanId", "1");
   ("interval", "month");
   ("amount", "0")].

(* ================================================================== *)
(** ** Payment history and [hasSuccessfulPaymentByUserId] *)
(* ================================================================== *)

(** A row of the [payment_history] table, with the columns the query of
    [hasSuccessfulPaymentByUserId] reads and the payment-intent id. *)
Module PaymentRow.
Record t : Type := make {
  user_id : JsVal;
  status : string;
  creem_payment_intent_id : JsVal
}.
End PaymentRow.

(** [WHERE user_id = $1 AND status = 'success'] *)
Definition is_successful_payment_of (user_id : string) (r : PaymentRow.t) : bool :=
  strict_eq_str (PaymentRow.user_id r) user_id
  && String.eqb (PaymentRow.status r) "success".

Definition num_gt (a : JsNum) (b : Z) : bool :=
  match a with
  | Num n => (n >? b)%Z
  | NaN => false
  end.

(** [hasSuccessfulPaymentByUserId]: the count comes back as a decimal
    string and is parsed; [parseInt] of a string converts nothing. *)
Definition hasSuccessfulPaymentByUserId
    (payment_history : list PaymentRow.t) (user_id : string) : bool :=
  let count :=
    NilZero.string_of_uint
      (Nat.to_uint
         (List.length (filter (is_successful_payment_of user_id) payment_history))) in
  num_gt (parseInt_string count) 0.

(** Modelled from the spec: the payment-history service behind
    [createPaymentHistory] is not part of the sources.  The specification
    describes the store as a log of payments with user id, payment status
    and external payment-intent id, and says a row with status "completed"
    is created per one-time completion: the service appends the row it is
    given, with the status it is given. *)
Definition payment_row (ph : PaymentHistory.t) : PaymentRow.t :=
  {| PaymentRow.user_id := PaymentHistory.user_uuid ph;
     PaymentRow.status := PaymentHistory.payment_status ph;
     PaymentRow.creem_payment_intent_id := PaymentHistory.payment_intent_id ph |}.

(** The rows one run of the handler adds: one per [createPaymentHistory]
    call that did not throw. *)
Fixpoint payment_rows_of (env : Env) (log : list Call) : list PaymentRow.t :=
  match log with
  | [] => []
  | createPaymentHistory ph :: rest =>
      if rejects env (createPaymentHistory ph)
      then payment_rows_of env rest
      else payment_row ph :: payment_rows_of env rest
  | _ :: rest => payment_rows_of env rest
  end.

(** The table after a sequence of webhook deliveries, starting empty. *)
Fixpoint payment_history_after (deliveries : list (Env * NextRequest))
  : list PaymentRow.t :=
  match deliveries with
  | [] => []
  | (env, req) :: rest =>
      (payment_rows_of env (calls (POST env req))
       ++ payment_history_after rest)%list
  end.

(* ================================================================== *)
(** ** Predicates on runs *)
(* ================================================================== *)



(** Every call a computation adds to the log satisfies [ok]. *)
Definition issues_only {A} (ok : Call -> Prop) (m : M A) : Prop :=
  forall log, Forall ok log -> Forall ok (fst (m log)).

(** Every payment the handler books has the status "completed". *)
Definition books_completed (c : Call) : Prop :=
  match c with
  | createPaymentHistory ph => PaymentHistory.payment_status ph = "completed"
  | _ => True
  end.

(* ================================================================== *)
(** ** The display formatters of [src/lib/formatter.ts] *)
(* ================================================================== *)

Definition toLowerCase_char (c : ascii) : ascii :=
  let n := nat_of_ascii c in
  if ((65 <=? n) && (n <=? 90))%nat then ascii_of_nat (n + 32) else c.

(** [s.toLowerCase()] *)
Fixpoint toLowerCase (s : string) : string :=
  match s with
  | EmptyString => EmptyString
  | String c rest => String (toLowerCase_char c) (toLowerCase rest)
  end.

(** The properties every object literal inherits from [Object.prototype]. *)
Definition Object_prototype : list string :=
  ["constructor"; "hasOwnProperty"; "isPrototypeOf"; "propertyIsEnumerable";
   "toLocaleString"; "toString"; "valueOf"; "__proto__";
   "__defineGetter__"; "__defineSetter__"; "__lookupGetter__";
   "__lookupSetter__"].

(** What [literal[key]] yields on an object literal with string values: an
    own value, a function or object inherited from [Object.prototype], or
    [undefined]. *)
Inductive Lookup : Type :=
| Own (value : string)
| Inherited (name : string)
| Undefined.

Fixpoint own_value (key : string) (literal : list (string * string))
  : option string :=
  match literal with
  | [] => None
  | (k, v) :: rest => if String.eqb k key then Some v else own_value key rest
  end.

Definition lookup (literal : list (string * string)) (key : string) : Lookup :=
  match own_value key literal with
  | Some v => Own v
  | None =>
      if existsb (String.eqb key) Object_prototype
      then Inherited key else Undefined
  end.

(** What a formatter returns: a string, or, against its declared type, the
    function or object it found on the prototype. *)
Inductive Displayed : Type :=
| Text (s : string)
| NotText (inherited : string).

(** [found || fallback]: an inherited function or object is truthy. *)
Definition or_else (found : Lookup) (fallback : string) : Displayed :=
  match found with
  | Own v => if String.eqb v "" then Text fallback else Text v
  | Inherited name => NotText name
  | Undefined => Text fallback
  end.

Definition periodMap : list (string * string) :=
  [("month", "month");
   ("year", "year");
   ("one-time", "one-time");
   ("monthly", "month");
   ("yearly", "year");
   ("annual", "year")].

Definition billingPeriodDisplay (period : string) : Displayed :=
  or_else (lookup periodMap (toLowerCase period)) period.

Definition statusMap : list (string * string) :=
  [("active", "Active");
   ("canceled", "Canceled");
   ("cancelled", "Canceled");
   ("expired", "Expired");
   ("pending", "Pending");
   ("trialing", "Trial")].

Definition formatSubscriptionStatus (status : string) : Displayed :=
  or_else (lookup statusMap (toLowerCase status)) status.

(* ================================================================== *)
(** ** Vocabulary for statements about every run *)
(* ================================================================== *)

(** The period end a store call writes, if it writes one. *)
Definition written_period_end (c : Call) : option Date :=
  match c with
  | createCreditUsage cu | updateCreditUsage cu => CreditUsage.period_end cu
  | createUserSubscription us | updateUserSubscription us =>
      UserSubscription.current_period_end us
  | _ => None
  end.

(** The store calls that write. *)
Definition is_write (c : Call) : bool :=
  match c with
  | getCreditUsageByUserId _ | getUserSubscriptionByUserId _ => false
  | _ => true
  end.

(** A host whose local time is UTC plus a fixed offset. *)
Definition fixed_offset (env : Env) (offset : Z) : Prop :=
  forall t utc, LocalTZA env t utc = offset.

(** A computation adds to the log at most [n] calls that satisfy [p]. *)
Definition at_most {A} (p : Call -> bool) (n : nat) (m : M A) : Prop :=
  forall log,
    (length (filter p (fst (m log))) <= length (filter p log) + n)%nat.

Definition any_call (c : Call) : bool := true.

(** The store calls within reach of an event on a one-time product, and
    those within reach of an event on a recurring product. *)
Definition one_time_call (c : Call) : bool :=
  match c with
  | getCreditUsageByUserId _ | updateCreditUsage _ | createPaymentHistory _ =>
      true
  | _ => false
  end.

Definition recurring_call (c : Call) : bool :=
  match c with
  | createPaymentHistory _ => false
  | _ => true
  end.

(** [Number.isSafeInteger(n)]: the integers that numbers hold exactly, and
    that [String] prints in decimal. *)
Definition safe_integer (n : Z) : Prop :=
  - (2 ^ 53 - 1) <= n <= 2 ^ 53 - 1.

(** The numbers the model holds as the code does: not-a-number and the
    safe integers. *)
Definition safe_number (x : JsNum) : Prop :=
  match x with
  | NaN => True
  | Num n => safe_integer n
  end.


(** The four handlers of the route. *)
Definition branches (env : Env) (w : JsVal) : list (M unit) :=
  [checkout_completed env w;
   subscription_paid env w;
   subscription_ended env CANCELLED w;
   subscription_ended env EXPIRED w].

(* ================================================================== *)
(** ** Sample events and environments *)
(* ================================================================== *)

(** Sample events and environments, used to run the statements below. *)
Module Sample.
Definition object_members (billing_type : string) : list (string * JsVal) :=
  [("request_id", VStr "u1");
   ("object", VStr "checkout");
   ("id", VStr "pay_1");
   ("customer", VObj [("id", VStr "cus_1")]);
   ("product", VObj [("id", VStr "prod_1");
                     ("billing_type", VStr billing_type)]);
   ("status", VStr "completed")].

(** An event laid out as the [WebhookResponse] interface. *)
Definition event (eventType billing_type : string) (metadata : JsVal) : JsVal :=
  VObj [("id", VStr "evt_1");
        ("eventType", VStr eventType);
        ("object",
          VObj (object_members billing_type ++ [("metadata", metadata)]))].

(** The same event without the [metadata] member. *)
Definition event_without_metadata (eventType billing_type : string) : JsVal :=
  VObj [("id", VStr "evt_1");
        ("eventType", VStr eventType);
        ("object", VObj (object_members billing_type))].

(** 31 January 2024, 00:00 UTC *)
Definition jan31 : Date := 1706659200000.

(** Empty stores that never fail, on a host whose local time is UTC. *)
Definition fresh : Env :=
  {| now := jan31;
     LocalTZA := utc_host;
     credit_usage_of := fun _ => None;
     user_subscriptions_of := fun _ => None;
     rejects := fun _ => false |}.

Definition row (user : string) : CreditUsage.t :=
  {| CreditUsage.user_uuid := VStr user;
     CreditUsage.credit_used := Num 3;
     CreditUsage.credit_total := Num 10;
     CreditUsage.period_start := Some 1700000000000;
     CreditUsage.period_end := Some 1800000000000 |}.

Definition subscription (user : string) : UserSubscription.t :=
  {| UserSubscription.user_uuid := VStr user;
     UserSubscription.subscription_plan_id := Some (Num 2);
     UserSubscription.status := CANCELLED;
     UserSubscription.current_period_start := Some 1600000000000;
     UserSubscription.current_period_end := Some 1900000000000;
     UserSubscription.stripe_subscription_id := VStr "sub_0";
     UserSubscription.stripe_customer_id := Some (VStr "cus_0") |}.

(** Stores that hold a credit-usage row and a subscription for every
    user, and never fail. *)
Definition stocked : Env :=
  {| now := jan31;
     LocalTZA := utc_host;
     credit_usage_of := fun _ => Some (row "u1");
     user_subscriptions_of := fun _ => Some [subscription "u2"];
     rejects := fun _ => false |}.
End Sample.

(* ================================================================== *)
(** ** Basic facts *)
(* ================================================================== *)

(** The built-ins on concrete inputs. *)
Example parseInt_digits : parseInt (VStr "50") = Some (Num 50).
Proof. reflexivity. Qed.

Example parseInt_prefix : parseInt (VStr "  -12px") = Some (Num (-12)).
Proof. reflexivity. Qed.

Example parseInt_hex : parseInt (VStr "0x1F") = Some (Num 31).
Proof. reflexivity. Qed.

Example parseInt_no_digits : parseInt (VStr "abc") = Some NaN.
Proof. reflexivity. Qed.

Example parseInt_number : parseInt (VNum 42) = Some (Num 42).
Proof. reflexivity. Qed.

Example parseInt_array :
  parseInt (VArr [VNum 7; VNull; VObj []]) = Some (Num 7).
Proof. reflexivity. Qed.

Example parseInt_plain_object : parseInt (VObj [("credit", VNum 5)]) = Some NaN.
Proof. reflexivity. Qed.

Example parseInt_own_toString : parseInt (VObj [("toString", VNum 1)]) = None.
Proof. reflexivity. Qed.

Example parseInt_own_toString_in_array :
  parseInt (VArr [VNum 7; VObj [("toString", VNull)]]) = None.
Proof. reflexivity. Qed.

Example js_or_empty_string : js_or (VStr "") (VStr "100") = VStr "100".
Proof. reflexivity. Qed.

(** 31 January 2024 + 1 month is 2 March 2024: February has 29 days and the
    two days past its end carry over. *)
Example setMonth_end_of_january :
  setMonth utc_host 1706659200000 (getMonth utc_host 1706659200000 + 1)
  = 1709337600000.
Proof. reflexivity. Qed.

(** 31 December 2024 + 1 month is 31 January 2025. *)
Example setMonth_december :
  setMonth utc_host 1735603200000 (getMonth utc_host 1735603200000 + 1)
  = 1738281600000.
Proof. reflexivity. Qed.

(** 29 February 2024 + 1 year is 1 March 2025. *)
Example setFullYear_leap_day :
  setFullYear utc_host 1709164800000 (getFullYear utc_host 1709164800000 + 1)
  = 1740787200000.
Proof. reflexivity. Qed.

Lemma strict_eq_str_true (v : JsVal) (s : string) :
  strict_eq_str v s = true <-> v = VStr s.
Proof.
  destruct v; simpl; try (split; [discriminate | intros H; inversion H]).
  - rewrite String.eqb_eq. split; [intros ->; reflexivity | intros H; inversion H; reflexivity].
Qed.

Lemma strict_eq_str_false (v : JsVal) (s : string) :
  strict_eq_str v s = false <-> v <> VStr s.
Proof.
  rewrite <- strict_eq_str_true. destruct (strict_eq_str v s); split; congruence.
Qed.

Lemma field_cons (v : JsVal) (k : string) (path : list string) :
  nullish v = false -> field v (k :: path) = field (prop v k) path.
Proof. intros H. simpl. unfold get_prop. rewrite H. reflexivity. Qed.

Lemma field_nullish (v : JsVal) (k : string) (path : list string) :
  nullish v = true -> field v (k :: path) = Throw (TypeError k).
Proof. intros H. simpl. unfold get_prop. rewrite H. reflexivity. Qed.

Lemma opt_field_ok (v v' : JsVal) (path : list string) (k : string) :
  field v path = Ok v' -> opt_field v path k = Ok (opt_prop v' k).
Proof. intros H. unfold opt_field. rewrite H. reflexivity. Qed.

Lemma has_product_inv (w : JsVal) :
  has_product w = true ->
  nullish w = false /\ nullish (prop w "object") = false
  /\ nullish (prop (prop w "object") "product") = false.
Proof.
  unfold has_product, product_of, object_of.
  rewrite !andb_true_iff, !negb_true_iff. tauto.
Qed.

(** What each property path of the handler reads on an event whose
    [object.product] exists. *)
Section Reads.
Variable w : JsVal.
Hypothesis Hproduct : has_product w = true.

Let Hw : nullish w = false := proj1 (has_product_inv w Hproduct).
Let Ho : nullish (prop w "object") = false :=
  proj1 (proj2 (has_product_inv w Hproduct)).
Let Hp : nullish (prop (prop w "object") "product") = false :=
  proj2 (proj2 (has_product_inv w Hproduct)).

Lemma read_billing_type :
  field w ["object"; "product"; "billing_type"] = Ok (billing_type_of w).
Proof. rewrite !field_cons by assumption. reflexivity. Qed.

Lemma read_eventType : field w ["eventType"] = Ok (eventType_of w).
Proof. rewrite !field_cons by assumption. reflexivity. Qed.

Lemma read_request_id :
  field w ["object"; "request_id"] = Ok (request_id_of w).
Proof. rewrite !field_cons by assumption. reflexivity. Qed.

Lemma read_product_id :
  field w ["object"; "product"; "id"] = Ok (prop (product_of w) "id").
Proof. rewrite !field_cons by assumption. reflexivity. Qed.

Lemma read_object_id : field w ["object"; "id"] = Ok (object_id_of w).
Proof. rewrite !field_cons by assumption. reflexivity. Qed.

Lemma read_metadata_field (k : string) :
  opt_field w ["object"; "metadata"] k = Ok (metadata_field w k).
Proof.
  apply opt_field_ok. rewrite !field_cons by assumption. reflexivity.
Qed.

Lemma read_customer_id :
  field w ["object"; "customer"; "id"]
  = if has_customer w then Ok (customer_id_of w) else Throw (TypeError "id").
Proof.
  rewrite !field_cons by assumption. unfold has_customer, customer_of, object_of.
  destruct (nullish (prop (prop w "object") "customer")) eqn:E; cbn [negb].
  - apply field_nullish, E.
  - rewrite field_cons by assumption. reflexivity.
Qed.

Lemma read_userId :
  field w ["object"; "metadata"; "userId"]
  = if has_metadata w then Ok (metadata_field w "userId")
    else Throw (TypeError "userId").
Proof.
  rewrite !field_cons by assumption.
  unfold has_metadata, metadata_field, opt_prop, metadata_of, object_of.
  destruct (nullish (prop (prop w "object") "metadata")) eqn:E; cbn [negb].
  - apply field_nullish, E.
  - rewrite field_cons by assumption. reflexivity.
Qed.
End Reads.

Create Rewrite HintDb reads.
#[local] Hint Rewrite read_billing_type read_eventType read_request_id
  read_product_id read_object_id read_metadata_field read_customer_id
  read_userId using assumption : reads.

(** Run the handler symbolically: unfold the monad, rewrite each property
    read by its value, reduce. *)
Ltac run_handler :=
  unfold POST, try_block, request, checkout_completed, subscription_paid,
    subscription_ended, when, bind, lift, ret, throw, await;
  cbv beta iota zeta; cbn [json];
  repeat (autorewrite with reads; cbv beta iota zeta).

Ltac split_bool_hyps :=
  repeat match goal with
    | H : (_ && _)%bool = true |- _ => apply andb_prop in H; destruct H
    | H : negb _ = true |- _ => apply negb_true_iff in H
    end.

(* ================================================================== *)
(** ** The first one-time purchase of a user *)
(* ================================================================== *)

(** C1, as the code behaves: on a one-time "checkout.completed" event for
    a user who has no credit-usage row, the handler does not reach
    [createCreditUsage].  Line 122 reads [period_end] of the missing row
    before line 126 tests for it; the read throws, nothing is created, no
    payment history is written, and the response is the 500 failure
    response. *)
Theorem first_purchase_throws_before_create (env : Env) (w : JsVal) :
  is_one_time w = true ->
  eventType_of w = VStr "checkout.completed" ->
  has_customer w = true ->
  credit_usage_of env (request_id_of w) = None ->
  rejects env (getCreditUsageByUserId (request_id_of w)) = false ->
  POST env (request w)
  = {| calls := [getCreditUsageByUserId (request_id_of w)];
       logged := Some (TypeError "period_end");
       response := failure_response |}.
Proof.
  intros Hone Het Hcus Hrow Hread.
  unfold is_one_time in Hone. split_bool_hyps.
  run_handler.
  match goal with H : strict_eq_str _ _ = false |- _ => rewrite H end.
  rewrite Het, Hcus.
  cbn [strict_eq_str String.eqb Ascii.eqb Bool.eqb negb]; cbv beta iota zeta.
  rewrite Hread, Hrow. reflexivity.
Qed.

(** The scenario of the specification (with the customer the handler
    reads), on empty stores that never fail. *)
Lemma first_purchase_throws_before_create_witness :
  POST Sample.fresh
       (request (Sample.event "checkout.completed" "one-time"
                              (VObj [("credit", VStr "50")])))
  = {| calls := [getCreditUsageByUserId (VStr "u1")];
       logged := Some (TypeError "period_end");
       response := failure_response |}.
Proof.
  exact (first_purchase_throws_before_create
           Sample.fresh
           (Sample.event "checkout.completed" "one-time"
                         (VObj [("credit", VStr "50")]))
           eq_refl eq_refl eq_refl eq_refl eq_refl).
Defined.

(* ================================================================== *)
(** ** One-time top-ups *)
(* ================================================================== *)




(* ================================================================== *)
(** ** Subscription payments *)
(* ================================================================== *)






(* ================================================================== *)
(** ** Cancellation and expiry *)
(* ================================================================== *)

(** C5: on a recurring product, "subscription.canceled" issues at most one
    store call, [updateUserSubscription], whose argument carries the user,
    the external subscription id and the status CANCELLED and nothing else:
    no plan, no period start or end, no customer id.
    "subscription.expired" does the same with the status EXPIRED.  No
    credit-usage or payment-history service is called, for reading or for
    writing.  The call is issued whenever the event has metadata to take
    the user from (without metadata the handler throws before any call),
    and the response is then the success response unless that one call
    throws. *)
Theorem subscription_end_touches_status_only
    (env : Env) (w : JsVal) (eventType : string)
    (status : UserSubscriptionStatusEnum) :
  (eventType = "subscription.canceled" /\ status = CANCELLED)
  \/ (eventType = "subscription.expired" /\ status = EXPIRED) ->
  is_recurring w = true ->
  eventType_of w = VStr eventType ->
  let update :=
    updateUserSubscription {|
      UserSubscription.user_uuid := metadata_field w "userId";
      UserSubscription.subscription_plan_id := None;
      UserSubscription.status := status;
      UserSubscription.current_period_start := None;
      UserSubscription.current_period_end := None;
      UserSubscription.stripe_subscription_id := object_id_of w;
      UserSubscription.stripe_customer_id := None |} in
  calls (POST env (request w)) = (if has_metadata w then [update] else [])
  /\ response (POST env (request w))
     = if has_metadata w && negb (rejects env update)
       then success_response else failure_response.
Proof.
  intros Hev Hrec Het update. subst update.
  unfold is_recurring in Hrec. split_bool_hyps.
  run_handler.
  match goal with H : strict_eq_str _ _ = true |- _ => rewrite H end.
  rewrite Het.
  destruct Hev as [[-> ->] | [-> ->]];
    cbn [strict_eq_str String.eqb Ascii.eqb Bool.eqb negb];
    cbv beta iota zeta;
    (destruct (has_metadata w); cbv beta iota zeta; cbn [app andb];
     [ match goal with |- context [rejects ?e ?c] => destruct (rejects e c) end
     | ]; split; reflexivity).
Qed.

(** A cancellation, run against stores that hold rows for the user. *)
Lemma subscription_end_touches_status_only_witness :
  calls (POST Sample.stocked
              (request (Sample.event "subscription.canceled" "recurring"
                                     (VObj [("userId", VStr "u2")]))))
  = [updateUserSubscription {|
       UserSubscription.user_uuid := VStr "u2";
       UserSubscription.subscription_plan_id := None;
       UserSubscription.status := CANCELLED;
       UserSubscription.current_period_start := None;
       UserSubscription.current_period_end := None;
       UserSubscription.stripe_subscription_id := VStr "pay_1";
       UserSubscription.stripe_customer_id := None |}]
  /\ response (POST Sample.stocked
        (request (Sample.event "subscription.canceled" "recurring"
                               (VObj [("userId", VStr "u2")]))))
     = success_response.
Proof.
  exact (subscription_end_touches_status_only
           Sample.stocked
           (Sample.event "subscription.canceled" "recurring"
                         (VObj [("userId", VStr "u2")]))
           "subscription.canceled" CANCELLED
           (or_introl (conj eq_refl eq_refl)) eq_refl eq_refl).
Defined.

(* ================================================================== *)
(** ** Unhandled events *)
(* ================================================================== *)

(** C6: an event whose [object.product] can be read and whose event type is
    not handled on its billing-type branch -- anything but
    "checkout.completed" on a product that is not recurring, anything but
    "subscription.paid", "subscription.canceled" and "subscription.expired"
    on a recurring one -- issues no store call at all and is answered with
    the 200 success response. *)
Theorem unhandled_event_acknowledged (env : Env) (w : JsVal) :
  has_product w = true ->
  (billing_type_of w <> VStr "recurring"
   /\ eventType_of w <> VStr "checkout.completed")
  \/ (billing_type_of w = VStr "recurring"
      /\ eventType_of w <> VStr "subscription.paid"
      /\ eventType_of w <> VStr "subscription.canceled"
      /\ eventType_of w <> VStr "subscription.expired") ->
  POST env (request w)
  = {| calls := []; logged := None; response := success_response |}.
Proof.
  intros Hp [[Hb He] | (Hb & He1 & He2 & He3)].
  - apply strict_eq_str_false in Hb, He.
    run_handler. rewrite Hb, He. reflexivity.
  - apply strict_eq_str_true in Hb.
    apply strict_eq_str_false in He1, He2, He3.
    run_handler. rewrite Hb, He1, He2, He3. reflexivity.
Qed.

(** "subscription.paid" on a one-time product is acknowledged and ignored. *)
Lemma unhandled_event_acknowledged_witness :
  POST Sample.stocked
       (request (Sample.event "subscription.paid" "one-time"
                              (VObj [("userId", VStr "u2")])))
  = {| calls := []; logged := None; response := success_response |}.
Proof.
  apply unhandled_event_acknowledged.
  - reflexivity.
  - left. split; discriminate.
Defined.

(* ================================================================== *)
(** ** The failure boundary *)
(* ================================================================== *)



Section Discipline.
Variable env : Env.











End Discipline.


(** When [object.product] cannot be read, reading the billing type throws. *)
Lemma read_billing_type_throws (w : JsVal) :
  has_product w = false ->
  exists k, field w ["object"; "product"; "billing_type"] = Throw (TypeError k).
Proof.
  unfold has_product, product_of, object_of. intros H.
  destruct (nullish w) eqn:Hw.
  { eexists. apply field_nullish, Hw. }
  rewrite field_cons by assumption.
  destruct (nullish (prop w "object")) eqn:Ho.
  { eexists. apply field_nullish, Ho. }
  rewrite field_cons by assumption.
  destruct (nullish (prop (prop w "object") "product")) eqn:Hp.
  { eexists. apply field_nullish, Hp. }
  discriminate H.
Qed.



(* ================================================================== *)
(** ** Defaults for missing metadata *)
(* ================================================================== *)

Lemma own_property_snoc (k k0 : string) (x : JsVal) (ms : list (string * JsVal)) :
  own_property k (ms ++ [(k0, x)])
  = if String.eqb k0 k then x else own_property k ms.
Proof. unfold own_property. rewrite fold_left_app. reflexivity. Qed.

Lemma prop_set_prop (v : JsVal) (k k' : string) (x : JsVal) :
  prop (set_prop v k x) k' = if String.eqb k k' then x else prop v k'.
Proof.
  destruct v; cbn [set_prop prop]; try apply own_property_snoc;
    unfold own_property; cbn; destruct (String.eqb k k'); reflexivity.
Qed.

Lemma set_prop_not_nullish (v : JsVal) (k : string) (x : JsVal) :
  nullish (set_prop v k x) = false.
Proof. destruct v; reflexivity. Qed.

Lemma opt_prop_is_prop (v : JsVal) (k : string) : opt_prop v k = prop v k.
Proof. unfold opt_prop. destruct v; reflexivity. Qed.

(** What the handler reads on an event with a metadata field set. *)
Section WithMetadataField.
Variables (w : JsVal) (k : string) (x : JsVal).
Let w' := with_metadata_field w k x.

Lemma with_metadata_object (k' : string) :
  String.eqb "metadata" k' = false ->
  prop (object_of w') k' = prop (object_of w) k'.
Proof.
  intros H. unfold w', with_metadata_field, object_of.
  rewrite prop_set_prop. cbn [String.eqb Ascii.eqb Bool.eqb].
  rewrite prop_set_prop, H. reflexivity.
Qed.

Lemma with_metadata_eventType : eventType_of w' = eventType_of w.
Proof.
  unfold w', with_metadata_field, eventType_of. rewrite prop_set_prop. reflexivity.
Qed.

Lemma with_metadata_product : product_of w' = product_of w.
Proof. apply with_metadata_object. reflexivity. Qed.

Lemma with_metadata_customer : customer_of w' = customer_of w.
Proof. apply with_metadata_object. reflexivity. Qed.

Lemma with_metadata_request_id : request_id_of w' = request_id_of w.
Proof. apply with_metadata_object. reflexivity. Qed.

Lemma with_metadata_object_id : object_id_of w' = object_id_of w.
Proof. apply with_metadata_object. reflexivity. Qed.

Lemma with_metadata_metadata : metadata_of w' = set_prop (metadata_of w) k x.
Proof.
  unfold w', with_metadata_field, metadata_of, object_of.
  rewrite prop_set_prop. cbn [String.eqb Ascii.eqb Bool.eqb].
  rewrite prop_set_prop. reflexivity.
Qed.

Lemma with_metadata_field_read (k' : string) :
  metadata_field w' k' = if String.eqb k k' then x else metadata_field w k'.
Proof.
  unfold metadata_field. rewrite with_metadata_metadata, !opt_prop_is_prop.
  apply prop_set_prop.
Qed.

Lemma with_metadata_has_product : has_product w = true -> has_product w' = true.
Proof.
  unfold has_product. rewrite with_metadata_product.
  unfold w', with_metadata_field. unfold object_of at 3.
  rewrite prop_set_prop. cbn [String.eqb Ascii.eqb Bool.eqb].
  rewrite !set_prop_not_nullish.
  rewrite !andb_true_iff. tauto.
Qed.

Lemma with_metadata_has_metadata : has_metadata w' = true.
Proof.
  unfold has_metadata. rewrite with_metadata_metadata, set_prop_not_nullish.
  reflexivity.
Qed.
End WithMetadataField.

Lemma with_metadata_billing_type (w : JsVal) (k : string) (x : JsVal) :
  billing_type_of (with_metadata_field w k x) = billing_type_of w.
Proof. unfold billing_type_of. rewrite with_metadata_product. reflexivity. Qed.

Lemma with_metadata_customer_id (w : JsVal) (k : string) (x : JsVal) :
  customer_id_of (with_metadata_field w k x) = customer_id_of w.
Proof. unfold customer_id_of. rewrite with_metadata_customer. reflexivity. Qed.

Lemma with_metadata_has_customer (w : JsVal) (k : string) (x : JsVal) :
  has_customer (with_metadata_field w k x) = has_customer w.
Proof. unfold has_customer. rewrite with_metadata_customer. reflexivity. Qed.

Create Rewrite HintDb with_metadata.
#[local] Hint Rewrite with_metadata_billing_type with_metadata_eventType
  with_metadata_product with_metadata_customer_id with_metadata_has_customer
  with_metadata_request_id with_metadata_object_id with_metadata_field_read
  with_metadata_has_metadata : with_metadata.

Lemma js_or_absent (d : JsVal) : js_or VUndefined d = d.
Proof. reflexivity. Qed.

Lemma js_or_same (v : JsVal) : js_or v v = v.
Proof. unfold js_or. destruct (truthy v); reflexivity. Qed.

(** C8 does not hold for every handled event: a "subscription.paid" event
    on a recurring product that has no metadata at all lacks the credit
    field, and yet the handler fails with 500 (it reads [metadata.userId]
    first), while the event that carries the credit default succeeds. *)
Lemma absent_metadata_fails_on_recurring_branch :
  let w := Sample.event_without_metadata "subscription.paid" "recurring" in
  is_recurring w = true
  /\ eventType_of w = VStr "subscription.paid"
  /\ In ("credit", "1000") (metadata_defaults w)
  /\ metadata_field w "credit" = VUndefined
  /\ POST Sample.fresh (request w)
     = {| calls := [];
          logged := Some (TypeError "userId");
          response := failure_response |}
  /\ response (POST Sample.fresh
                    (request (with_metadata_field w "credit" (VStr "1000"))))
     = success_response.
Proof.
  cbv zeta. repeat split; try reflexivity. left. reflexivity.
Qed.

(** C8, amended: a metadata field that is absent is read as its default,
    provided that on the recurring branch the metadata itself is present.
    For an event whose [object.product] can be read, and each of the fields
    credit (default "100" on the one-time branch, "1000" on the recurring
    branch), subscriptionPlanId (default "1"), interval (default "month")
    and amount (default "0"): if the field is absent from the metadata, the
    handler issues the same store calls, logs the same and answers the same
    as on the event that carries the default in that field.  On the
    one-time branch this holds even when the event has no metadata at
    all. *)
Theorem absent_metadata_field_reads_as_default
    (env : Env) (w : JsVal) (k default : string) :
  has_product w = true ->
  is_one_time w = true \/ has_metadata w = true ->
  In (k, default) (metadata_defaults w) ->
  metadata_field w k = VUndefined ->
  POST env (request w)
  = POST env (request (with_metadata_field w k (VStr default))).
Proof.
  intros Hp Hmeta Hin Habsent.
  pose proof (with_metadata_has_product w k (VStr default) Hp) as Hp'.
  unfold metadata_defaults, is_recurring, is_one_time in *.
  rewrite Hp in *. cbn [andb In] in *.
  run_handler. autorewrite with with_metadata.
  destruct (strict_eq_str (billing_type_of w) "recurring") eqn:Hbt;
    cbn [negb] in *; cbv beta iota zeta.
  - (* recurring *)
    destruct Hmeta as [Hmeta | Hmeta]; [discriminate Hmeta |]. rewrite Hmeta.
    destruct Hin as [Hin | [Hin | [Hin | [Hin | []]]]];
      injection Hin as <- <-;
      cbn [String.eqb Ascii.eqb Bool.eqb]; rewrite ?Habsent;
      rewrite ?js_or_absent, ?js_or_same;
      cbn [strict_eq_str String.eqb Ascii.eqb Bool.eqb];
      reflexivity.
  - (* one-time *)
    destruct Hin as [Hin | [Hin | [Hin | [Hin | []]]]];
      injection Hin as <- <-;
      cbn [String.eqb Ascii.eqb Bool.eqb]; rewrite ?Habsent;
      rewrite ?js_or_absent, ?js_or_same;
      cbn [strict_eq_str String.eqb Ascii.eqb Bool.eqb];
      reflexivity.
Qed.

(** A renewal without metadata credit behaves as one with credit "1000". *)
Lemma absent_metadata_field_reads_as_default_witness :
  POST Sample.fresh
       (request (Sample.event "subscription.paid" "recurring"
                              (VObj [("userId", VStr "u2")])))
  = POST Sample.fresh
         (request (with_metadata_field
                     (Sample.event "subscription.paid" "recurring"
                                   (VObj [("userId", VStr "u2")]))
                     "credit" (VStr "1000"))).
Proof.
  exact (absent_metadata_field_reads_as_default
           Sample.fresh
           (Sample.event "subscription.paid" "recurring"
                         (VObj [("userId", VStr "u2")]))
           "credit" "1000"
           eq_refl (or_intror eq_refl) (or_introl eq_refl) eq_refl).
Defined.

(* ================================================================== *)
(** ** Which user the store calls are about *)
(* ================================================================== *)

(** C9: every store call of a one-time "checkout.completed" run, read or
    write, is about the user [object.request_id], whatever the metadata
    holds; every store call of a recurring "subscription.paid" run is about
    the user [metadata.userId]. *)
Theorem user_id_source_by_path (env : Env) (w : JsVal) (c : Call) :
  In c (calls (POST env (request w))) ->
  (is_one_time w = true ->
   eventType_of w = VStr "checkout.completed" ->
   call_user c = request_id_of w)
  /\ (is_recurring w = true ->
      eventType_of w = VStr "subscription.paid" ->
      call_user c = metadata_field w "userId").
Proof.
  intros Hin. split; intros Hbt Het.
  - unfold is_one_time in Hbt. split_bool_hyps.
    revert Hin. run_handler.
    match goal with H : strict_eq_str _ _ = false |- _ => rewrite H end.
    rewrite Het.
    cbn [strict_eq_str String.eqb Ascii.eqb Bool.eqb negb]; cbv beta iota zeta.
    destruct (has_customer w); cbv beta iota zeta; cbn [app calls];
      [| intros []].
    repeat (match goal with
            | |- context [rejects ?e ?k] => destruct (rejects e k)
            | |- context [credit_usage_of ?e ?u] =>
                destruct (credit_usage_of e u) as [[? ? ? ? [?|]] |]
            | |- context [converted ?r] => destruct r
            end; cbn [converted]; cbv beta iota zeta; cbn [app calls]);
      cbn [In]; intros Hcall;
      repeat (destruct Hcall as [<- | Hcall]; [reflexivity |]);
      destruct Hcall.
  - unfold is_recurring in Hbt. split_bool_hyps.
    revert Hin. run_handler.
    match goal with H : strict_eq_str _ _ = true |- _ => rewrite H end.
    rewrite Het.
    cbn [strict_eq_str String.eqb Ascii.eqb Bool.eqb negb]; cbv beta iota zeta.
    destruct (has_metadata w); cbv beta iota zeta; cbn [app calls];
      [| intros []].
    destruct (has_customer w); cbv beta iota zeta; cbn [app calls];
      [| intros []].
    repeat (match goal with
            | |- context [rejects ?e ?k] => destruct (rejects e k)
            | |- context [credit_usage_of ?e ?u] =>
                destruct (credit_usage_of e u) as [? |]
            | |- context [user_subscriptions_of ?e ?u] =>
                destruct (user_subscriptions_of e u) as [[| ? ?] |]
            | |- context [converted ?r] => destruct r
            end; cbn [converted]; cbv beta iota zeta; cbn [app calls]);
      cbn [In]; intros Hcall;
      repeat (destruct Hcall as [<- | Hcall]; [reflexivity |]);
      destruct Hcall.
Qed.

(** A one-time purchase whose metadata names another user, and a
    subscription payment: the first is booked on [request_id], the second
    on [metadata.userId]. *)
Lemma user_id_source_by_path_witness :
  let one_time := Sample.event "checkout.completed" "one-time"
                               (VObj [("userId", VStr "u2")]) in
  let paid := Sample.event "subscription.paid" "recurring"
                           (VObj [("userId", VStr "u2")]) in
  let payment := createPaymentHistory {|
    PaymentHistory.user_uuid := VStr "u1";
    PaymentHistory.subscription_plan_id := Num 1;
    PaymentHistory.amount := float_of_string "0";
    PaymentHistory.interval := VStr "month";
    PaymentHistory.payment_status := "completed";
    PaymentHistory.payment_intent_id := VStr "pay_1" |} in
  let read := getCreditUsageByUserId (VStr "u2") in
  (In payment (calls (POST Sample.stocked (request one_time)))
   /\ call_user payment = request_id_of one_time)
  /\ (In read (calls (POST Sample.stocked (request paid)))
      /\ call_user read = metadata_field paid "userId").
Proof.
  cbv zeta. split; split.
  - right; right; left; reflexivity.
  - refine (proj1 (user_id_source_by_path
                     Sample.stocked
                     (Sample.event "checkout.completed" "one-time"
                                   (VObj [("userId", VStr "u2")]))
                     _ _) eq_refl eq_refl).
    right; right; left; reflexivity.
  - right; right; left; reflexivity.
  - refine (proj2 (user_id_source_by_path
                     Sample.stocked
                     (Sample.event "subscription.paid" "recurring"
                                   (VObj [("userId", VStr "u2")]))
                     _ _) eq_refl eq_refl).
    right; right; left; reflexivity.
Defined.

(* ================================================================== *)
(** ** Payments booked by the webhook *)
(* ================================================================== *)

(** A property of store calls that every call site of the handler
    establishes holds of every call of every run. *)
Section CallInvariant.
Variable env : Env.
Variable ok : Call -> Prop.

Lemma only_ret {A} (a : A) : issues_only ok (ret a).
Proof. intros log H. exact H. Qed.

Lemma only_throw {A} (e : Error) : issues_only ok (@throw A e).
Proof. intros log H. exact H. Qed.

Lemma only_lift {A} (r : Result A) : issues_only ok (lift r).
Proof. intros log H. exact H. Qed.

Lemma only_await {A} (c : Call) (a : A) : ok c -> issues_only ok (await env c a).
Proof.
  intros Hc log H. unfold await. cbn [fst].
  apply Forall_app. split; [exact H | constructor; [exact Hc | constructor]].
Qed.

Lemma only_bind {A B} (m : M A) (f : A -> M B) :
  issues_only ok m -> (forall a, issues_only ok (f a)) -> issues_only ok (bind m f).
Proof.
  intros Hm Hf log H. unfold bind. specialize (Hm log H).
  destruct (m log) as [log' [a | e]]; cbn [fst] in *.
  - apply Hf, Hm.
  - exact Hm.
Qed.

Lemma only_when (cond : bool) (body : M unit) :
  issues_only ok body -> issues_only ok (when cond body).
Proof. intros H. destruct cond; [exact H | apply only_ret]. Qed.
End CallInvariant.

Ltac call_sites :=
  repeat first
    [ apply only_ret | apply only_throw | apply only_lift | apply only_when
    | apply only_bind; [| intros ?]
    | match goal with
      | |- issues_only _ (match ?x with _ => _ end) => destruct x
      end
    | apply only_await ].

Lemma POST_books_completed (env : Env) (req : NextRequest) :
  Forall books_completed (calls (POST env req)).
Proof.
  assert (H : issues_only books_completed (try_block env req)).
  { unfold try_block, checkout_completed, subscription_paid, subscription_ended.
    call_sites; exact I || reflexivity. }
  specialize (H [] (Forall_nil _)). unfold POST.
  destruct (try_block env req []) as [log [u | e]]; exact H.
Qed.

Lemma payment_rows_completed (env : Env) (log : list Call) (r : PaymentRow.t) :
  Forall books_completed log ->
  In r (payment_rows_of env log) ->
  PaymentRow.status r = "completed".
Proof.
  induction 1 as [| c log Hc Hlog IH]; cbn [payment_rows_of]; [intros [] |].
  destruct c; try exact IH.
  destruct (rejects env (createPaymentHistory paymentHistory)); [exact IH |].
  intros [<- | Hin]; [exact Hc | exact (IH Hin)].
Qed.

Lemma payment_history_after_completed
    (deliveries : list (Env * NextRequest)) (r : PaymentRow.t) :
  In r (payment_history_after deliveries) -> PaymentRow.status r = "completed".
Proof.
  induction deliveries as [| [env req] rest IH]; cbn [payment_history_after];
    [intros [] |].
  intros Hin. apply in_app_or in Hin. destruct Hin as [Hin | Hin].
  - exact (payment_rows_completed env _ r (POST_books_completed env req) Hin).
  - exact (IH Hin).
Qed.

Lemma hasSuccessfulPayment_row (table : list PaymentRow.t) (user_id : string) :
  hasSuccessfulPaymentByUserId table user_id = true ->
  exists r, In r table
            /\ PaymentRow.user_id r = VStr user_id
            /\ PaymentRow.status r = "success".
Proof.
  unfold hasSuccessfulPaymentByUserId.
  destruct (filter (is_successful_payment_of user_id) table) as [| r rows] eqn:E.
  - cbn. discriminate.
  - intros _. exists r.
    assert (Hin : In r (filter (is_successful_payment_of user_id) table))
      by (rewrite E; left; reflexivity).
    apply filter_In in Hin. destruct Hin as [Hin Hr].
    unfold is_successful_payment_of in Hr. apply andb_prop in Hr.
    destruct Hr as [Hu Hs].
    apply strict_eq_str_true in Hu. apply String.eqb_eq in Hs. auto.
Qed.

(** C10: every [createPaymentHistory] call the handler issues carries the
    payment status "completed"; [hasSuccessfulPaymentByUserId] answers true
    only when the table holds a row of that user whose status is 'success';
    so for a user whose rows in the payment-history table were all written
    by webhook deliveries, [hasSuccessfulPaymentByUserId] answers false. *)
Theorem webhook_payments_are_never_successful :
  (forall env req ph,
      In (createPaymentHistory ph) (calls (POST env req)) ->
      PaymentHistory.payment_status ph = "completed")
  /\ (forall table user_id,
        hasSuccessfulPaymentByUserId table user_id = true ->
        exists r, In r table
                  /\ PaymentRow.user_id r = VStr user_id
                  /\ PaymentRow.status r = "success")
  /\ (forall table user_id,
        (forall r, In r table -> PaymentRow.user_id r = VStr user_id ->
                   exists deliveries, In r (payment_history_after deliveries)) ->
        hasSuccessfulPaymentByUserId table user_id = false).
Proof.
  split; [| split].
  - intros env req ph Hin.
    pose proof (POST_books_completed env req) as H.
    rewrite Forall_forall in H. exact (H _ Hin).
  - exact hasSuccessfulPayment_row.
  - intros table user_id Hrows.
    destruct (hasSuccessfulPaymentByUserId table user_id) eqn:E;
      [exfalso | reflexivity].
    apply hasSuccessfulPayment_row in E. destruct E as (r & Hin & Hu & Hs).
    destruct (Hrows r Hin Hu) as [deliveries Hr].
    apply payment_history_after_completed in Hr. congruence.
Qed.

(** A user whose one-time purchase went through, in a table that also holds
    a successful payment of somebody else: the table holds the user's
    payment, and the query still answers false for them. *)
Lemma webhook_payments_are_never_successful_witness :
  let delivery :=
    (Sample.stocked,
     request (Sample.event "checkout.completed" "one-time"
                           (VObj [("credit", VStr "50")]))) in
  let foreign :=
    {| PaymentRow.user_id := VStr "u9";
       PaymentRow.status := "success";
       PaymentRow.creem_payment_intent_id := VStr "pay_9" |} in
  payment_history_after [delivery]
  = [{| PaymentRow.user_id := VStr "u1";
        PaymentRow.status := "completed";
        PaymentRow.creem_payment_intent_id := VStr "pay_1" |}]
  /\ hasSuccessfulPaymentByUserId
       (foreign :: payment_history_after [delivery]) "u1" = false.
Proof.
  cbv zeta. split.
  - reflexivity.
  - apply (proj2 (proj2 webhook_payments_are_never_successful)).
    intros r [<- | Hin] Hu.
    + discriminate Hu.
    + eexists. exact Hin.
Defined.

(* ================================================================== *)
(** ** [parseInt] reads back what [String] prints *)
(* ================================================================== *)

Lemma radix_prefix_digit (c : ascii) (k : Z) (rest : string) (acc : option Z) :
  digit_value c = Some k -> (k <? 10)%Z = true ->
  radix_prefix 10 (String c rest) acc
  = radix_prefix 10 rest
      (Some (10 * match acc with Some a => a | None => 0 end + k)).
Proof. intros H1 H2. cbn [radix_prefix]. rewrite H1, H2. reflexivity. Qed.

Ltac read_digit :=
  cbn [NilEmpty.string_of_uint];
  erewrite radix_prefix_digit by (vm_compute; reflexivity).

(** Reading back the digits of a decimal numeral, with the accumulator of
    [Nat.of_uint] and with that of [Pos.of_uint]. *)
Lemma radix_prefix_nat (d : Decimal.uint) (a : nat) :
  radix_prefix 10 (NilEmpty.string_of_uint d) (Some (Z.of_nat a))
  = Some (Z.of_nat (Nat.of_uint_acc d a)).
Proof.
  revert a. induction d; intros a; [reflexivity | ..];
    read_digit; cbn [Nat.of_uint_acc]; rewrite <- IHd;
    do 2 f_equal; rewrite Nat.tail_mul_spec; lia.
Qed.

Lemma radix_prefix_pos (d : Decimal.uint) (a : positive) :
  radix_prefix 10 (NilEmpty.string_of_uint d) (Some (Zpos a))
  = Some (Zpos (Pos.of_uint_acc d a)).
Proof.
  revert a. induction d; intros a; [reflexivity | ..];
    read_digit; cbn [Pos.of_uint_acc]; rewrite <- IHd;
    do 2 f_equal; lia.
Qed.

Lemma radix_prefix_N (d : Decimal.uint) :
  radix_prefix 10 (NilEmpty.string_of_uint d) (Some 0%Z)
  = Some (Z.of_N (Pos.of_uint d)).
Proof.
  induction d; [reflexivity | ..]; read_digit; cbn [Pos.of_uint];
    first [ exact IHd | apply radix_prefix_pos ].
Qed.

Lemma radix_prefix_start (d : Decimal.uint) :
  d <> Decimal.Nil ->
  radix_prefix 10 (NilEmpty.string_of_uint d) None
  = Some (Z.of_N (Pos.of_uint d)).
Proof.
  destruct d; [congruence | ..]; intros _; read_digit; cbn [Pos.of_uint];
    first [ apply radix_prefix_N | apply radix_prefix_pos ].
Qed.

Lemma radix_prefix_start_nat (d : Decimal.uint) :
  d <> Decimal.Nil ->
  radix_prefix 10 (NilEmpty.string_of_uint d) None
  = Some (Z.of_nat (Nat.of_uint d)).
Proof.
  destruct d; [congruence | ..]; intros _; read_digit;
    unfold Nat.of_uint; cbn [Nat.of_uint_acc];
    rewrite <- radix_prefix_nat; reflexivity.
Qed.

Ltac parse_numeral H :=
  unfold parseInt_string; cbn [NilEmpty.string_of_uint trim_start] in *;
  repeat match goal with
    | |- context [is_white_space ?c] => change (is_white_space c) with false
    end;
  cbv beta iota zeta; rewrite H; f_equal; lia.

(** A decimal numeral starts with a digit: no white space is trimmed, no
    sign and no [0x] prefix is read; after a minus sign the same digits are
    read and negated. *)
Lemma parseInt_string_numeral (d : Decimal.uint) (v : Z) :
  radix_prefix 10 (NilEmpty.string_of_uint d) None = Some v ->
  parseInt_string (NilEmpty.string_of_uint d) = Num v
  /\ parseInt_string (String "-" (NilEmpty.string_of_uint d)) = Num (- v).
Proof.
  intros H.
  destruct d as [| d | d | d | d | d | d | d | d | d | d]; [discriminate H | ..];
    try (split; parse_numeral H).
  destruct d; split; parse_numeral H.
Qed.

(** [parseInt(String(n))] is [n], for every integer. *)
Lemma parseInt_of_number (n : Z) : parseInt (VNum n) = Some (Num n).
Proof.
  unfold parseInt. cbn [ToString option_map]. f_equal.
  destruct n as [| p | p]; cbn [Z.to_int NilZero.string_of_int];
    [reflexivity | ..];
    pose proof (DecimalPos.Unsigned.to_uint_nonnil p) as Hp;
    pose proof (radix_prefix_start _ Hp) as H;
    rewrite DecimalPos.Unsigned.of_to in H;
    apply parseInt_string_numeral in H; destruct H as [Hpos Hneg];
    unfold NilZero.string_of_uint;
    destruct (Pos.to_uint p); first [congruence | assumption].
Qed.

(** A count printed in decimal is read back. *)
Lemma parseInt_count (n : nat) :
  parseInt_string (NilZero.string_of_uint (Nat.to_uint n)) = Num (Z.of_nat n).
Proof.
  unfold NilZero.string_of_uint.
  pose proof (DecimalNat.Unsigned.of_to n) as Hn.
  destruct (Nat.to_uint n) as [| d | d | d | d | d | d | d | d | d | d] eqn:E;
    [cbn in Hn; subst n; reflexivity | ..];
    rewrite <- Hn;
    apply parseInt_string_numeral, radix_prefix_start_nat; discriminate.
Qed.

(** X1: [hasSuccessfulPaymentByUserId] answers true exactly when the table
    holds a row of that user whose status is 'success', however many rows
    the table has. *)
Theorem hasSuccessfulPaymentByUserId_iff
    (table : list PaymentRow.t) (user_id : string) :
  hasSuccessfulPaymentByUserId table user_id = true
  <-> exists r, In r table
                /\ PaymentRow.user_id r = VStr user_id
                /\ PaymentRow.status r = "success".
Proof.
  unfold hasSuccessfulPaymentByUserId. rewrite parseInt_count. cbn [num_gt].
  split.
  - intros H.
    destruct (filter (is_successful_payment_of user_id) table) as [| r rows] eqn:E;
      [discriminate H |].
    assert (Hin : In r (filter (is_successful_payment_of user_id) table))
      by (rewrite E; left; reflexivity).
    apply filter_In in Hin. destruct Hin as [Hin Hr].
    unfold is_successful_payment_of in Hr. apply andb_prop in Hr.
    destruct Hr as [Hu Hs].
    apply strict_eq_str_true in Hu. apply String.eqb_eq in Hs.
    exists r. auto.
  - intros (r & Hin & Hu & Hs).
    assert (Hf : In r (filter (is_successful_payment_of user_id) table)).
    { apply filter_In. split; [exact Hin |].
      unfold is_successful_payment_of. rewrite Hu, Hs.
      cbn [strict_eq_str]. rewrite String.eqb_refl. reflexivity. }
    destruct (filter (is_successful_payment_of user_id) table) as [| x rows];
      [destruct Hf |].
    cbn [List.length]. apply Z.gtb_lt. lia.
Qed.

(** A table of a thousand and one rows, the last of them a successful
    payment of the user. *)
Lemma hasSuccessfulPaymentByUserId_iff_witness :
  let paid := {| PaymentRow.user_id := VStr "u1";
                 PaymentRow.status := "success";
                 PaymentRow.creem_payment_intent_id := VStr "pay_1" |} in
  let pending := {| PaymentRow.user_id := VStr "u1";
                    PaymentRow.status := "completed";
                    PaymentRow.creem_payment_intent_id := VStr "pay_0" |} in
  hasSuccessfulPaymentByUserId (repeat pending 1000 ++ [paid]) "u1" = true.
Proof.
  cbv zeta. apply hasSuccessfulPaymentByUserId_iff.
  eexists. split; [apply in_or_app; right; left; reflexivity |].
  split; reflexivity.
Defined.

(* ================================================================== *)
(** ** The display formatters *)
(* ================================================================== *)

Lemma toLowerCase_char_idempotent (c : ascii) :
  toLowerCase_char (toLowerCase_char c) = toLowerCase_char c.
Proof. destruct c as [[] [] [] [] [] [] [] []]; reflexivity. Qed.

Lemma toLowerCase_idempotent (s : string) :
  toLowerCase (toLowerCase s) = toLowerCase s.
Proof.
  induction s as [| c s IH]; [reflexivity |].
  cbn [toLowerCase]. rewrite toLowerCase_char_idempotent, IH. reflexivity.
Qed.

Lemma own_value_In (key v : string) (literal : list (string * string)) :
  own_value key literal = Some v -> In (key, v) literal.
Proof.
  induction literal as [| [k x] rest IH]; cbn [own_value]; [discriminate |].
  destruct (String.eqb_spec k key) as [-> | _].
  - intros [= ->]. left. reflexivity.
  - intros H. right. exact (IH H).
Qed.

(** A lowercased string is none of the names with a capital letter. *)
Lemma lowercase_prototype_names (s : string) :
  existsb (String.eqb (toLowerCase s)) Object_prototype = true ->
  toLowerCase s = "constructor" \/ toLowerCase s = "__proto__".
Proof.
  intros H. apply existsb_exists in H. destruct H as (name & Hin & Heq).
  apply String.eqb_eq in Heq. subst name.
  pose proof (toLowerCase_idempotent s) as Hidem.
  cbn [In Object_prototype] in Hin.
  repeat (destruct Hin as [Hin | Hin];
          [ first [ left; symmetry; exact Hin
                  | right; symmetry; exact Hin
                  | exfalso; rewrite <- Hin in Hidem; discriminate Hidem ] |]).
  destruct Hin.
Qed.

(** X2: [billingPeriodDisplay] returns one of "month", "year", "one-time" or
    its argument unchanged, and displaying what it returned returns the
    same again. *)
Theorem billingPeriodDisplay_canonical (period s : string) :
  billingPeriodDisplay period = Text s ->
  (In s ["month"; "year"; "one-time"] \/ s = period)
  /\ billingPeriodDisplay s = Text s.
Proof.
  unfold billingPeriodDisplay at 1, lookup.
  destruct (own_value (toLowerCase period) periodMap) as [v |] eqn:E.
  - apply own_value_In in E. cbn [In periodMap] in E.
    repeat (destruct E as [E | E];
            [ injection E as _ <-; intros [= <-];
              split; [left; cbn; tauto | reflexivity] |]).
    destruct E.
  - destruct (existsb _ _) eqn:Ep; cbn [or_else]; [discriminate |].
    intros [= <-]. split; [right; reflexivity |].
    unfold billingPeriodDisplay, lookup. rewrite E, Ep. reflexivity.
Qed.

(** X3: [formatSubscriptionStatus] returns one of "Active", "Canceled",
    "Expired", "Pending", "Trial" or its argument unchanged, and formatting
    what it returned returns the same again. *)
Theorem formatSubscriptionStatus_canonical (status s : string) :
  formatSubscriptionStatus status = Text s ->
  (In s ["Active"; "Canceled"; "Expired"; "Pending"; "Trial"] \/ s = status)
  /\ formatSubscriptionStatus s = Text s.
Proof.
  unfold formatSubscriptionStatus at 1, lookup.
  destruct (own_value (toLowerCase status) statusMap) as [v |] eqn:E.
  - apply own_value_In in E. cbn [In statusMap] in E.
    repeat (destruct E as [E | E];
            [ injection E as _ <-; intros [= <-];
              split; [left; cbn; tauto | reflexivity] |]).
    destruct E.
  - destruct (existsb _ _) eqn:Ep; cbn [or_else]; [discriminate |].
    intros [= <-]. split; [right; reflexivity |].
    unfold formatSubscriptionStatus, lookup. rewrite E, Ep. reflexivity.
Qed.

(** X4: the formatters look their argument up, lowercased, in an object
    literal, so a name that [Object.prototype] defines is found there:
    each formatter returns something that is not a string exactly when its
    argument, lowercased, is "constructor" or "__proto__". *)
Theorem formatters_return_inherited_property (s : string) :
  ((exists name, billingPeriodDisplay s = NotText name)
   <-> (toLowerCase s = "constructor" \/ toLowerCase s = "__proto__"))
  /\ ((exists name, formatSubscriptionStatus s = NotText name)
      <-> (toLowerCase s = "constructor" \/ toLowerCase s = "__proto__")).
Proof.
  split; split.
  - intros [name H]. unfold billingPeriodDisplay, lookup in H.
    destruct (own_value (toLowerCase s) periodMap) as [v |] eqn:E.
    + cbn [or_else] in H. destruct (String.eqb v ""); discriminate H.
    + destruct (existsb _ _) eqn:Ep; [| discriminate H].
      apply lowercase_prototype_names, Ep.
  - intros [H | H]; unfold billingPeriodDisplay; rewrite H; eexists; reflexivity.
  - intros [name H]. unfold formatSubscriptionStatus, lookup in H.
    destruct (own_value (toLowerCase s) statusMap) as [v |] eqn:E.
    + cbn [or_else] in H. destruct (String.eqb v ""); discriminate H.
    + destruct (existsb _ _) eqn:Ep; [| discriminate H].
      apply lowercase_prototype_names, Ep.
  - intros [H | H]; unfold formatSubscriptionStatus; rewrite H; eexists; reflexivity.
Qed.

(** A yearly plan spelled in capitals, and a period the table does not
    know. *)
Lemma billingPeriodDisplay_canonical_witness :
  (billingPeriodDisplay "YEARLY" = Text "year"
   /\ billingPeriodDisplay "year" = Text "year")
  /\ (billingPeriodDisplay "Quarterly" = Text "Quarterly").
Proof.
  split.
  - split; [reflexivity |].
    exact (proj2 (billingPeriodDisplay_canonical "YEARLY" "year" eq_refl)).
  - exact (proj2 (billingPeriodDisplay_canonical "Quarterly" "Quarterly" eq_refl)).
Defined.

Lemma formatSubscriptionStatus_canonical_witness :
  formatSubscriptionStatus "CANCELLED" = Text "Canceled"
  /\ formatSubscriptionStatus "Canceled" = Text "Canceled".
Proof.
  split; [reflexivity |].
  exact (proj2 (formatSubscriptionStatus_canonical "CANCELLED" "Canceled" eq_refl)).
Defined.

Lemma formatters_return_inherited_property_witness :
  exists name, billingPeriodDisplay "Constructor" = NotText name.
Proof.
  apply (proj1 (formatters_return_inherited_property "Constructor")).
  left. reflexivity.
Defined.

(* ================================================================== *)
(** ** The length of the periods the handler writes *)
(* ================================================================== *)

Ltac div_lia := Z.div_mod_to_equations; lia.

(** The civil date of a day number names that day: a month from 0 to 11, a
    day of the month from 1 to 31, and [DayFromYearMonth] leads back. *)
Lemma CivilFromDay_spec (day : Z) :
  let '(y, m, d) := CivilFromDay day in
  0 <= m <= 11 /\ 1 <= d <= 31 /\ DayFromYearMonth y m + d - 1 = day.
Proof.
  unfold CivilFromDay, DayFromYearMonth. cbv zeta.
  set (z := day + 719468).
  set (era := z / 146097).
  set (doe := z - era * 146097).
  assert (Hdoe : 0 <= doe <= 146096) by (subst doe era; div_lia).
  set (yoe := (doe - doe / 1460 + doe / 36524 - doe / 146096) / 365).
  set (doy := doe - (365 * yoe + yoe / 4 - yoe / 100)).
  assert (Hy : 0 <= yoe <= 399 /\ 0 <= doy <= 365) by (subst doy yoe; div_lia).
  set (mp := (5 * doy + 2) / 153).
  assert (Hmp : 0 <= mp <= 11) by (subst mp; div_lia).
  assert (Hd : 1 <= doy - (153 * mp + 2) / 5 + 1 <= 31) by (subst mp; div_lia).
  destruct (mp <? 10)%Z eqn:E10; [apply Z.ltb_lt in E10 | apply Z.ltb_ge in E10].
  - destruct (mp + 2 <? 2)%Z eqn:E2; [apply Z.ltb_lt in E2; lia | apply Z.ltb_ge in E2].
    replace (mp + 2 - 2) with mp by lia.
    replace ((yoe + era * 400 + 0) / 400) with era by div_lia.
    repeat split; try lia. subst doy z doe. div_lia.
  - destruct (mp - 10 <? 2)%Z eqn:E2; [apply Z.ltb_lt in E2 | apply Z.ltb_ge in E2; lia].
    replace (mp - 10 + 10) with mp by lia.
    replace ((yoe + era * 400 + 1 - 1) / 400) with era by div_lia.
    repeat split; try lia. subst doy z doe. div_lia.
Qed.

Ltac decide_tests :=
  repeat match goal with
    | |- context [Z.ltb ?a ?b] =>
        let v := eval vm_compute in (Z.ltb a b) in
        change (Z.ltb a b) with v
    end;
  cbv iota.

Lemma month_cases (m : Z) :
  0 <= m <= 11 ->
  m = 0 \/ m = 1 \/ m = 2 \/ m = 3 \/ m = 4 \/ m = 5 \/ m = 6
  \/ m = 7 \/ m = 8 \/ m = 9 \/ m = 10 \/ m = 11.
Proof. lia. Qed.

(** A month is 28 to 31 days long, a year 365 or 366. *)
Lemma month_length (y m : Z) :
  0 <= m <= 11 ->
  28 <= DayFromYearMonth (y + (m + 1) / 12) ((m + 1) mod 12)
        - DayFromYearMonth y m <= 31.
Proof.
  intros Hm. apply month_cases in Hm. unfold DayFromYearMonth.
  repeat (destruct Hm as [-> | Hm]); try subst m; decide_tests; div_lia.
Qed.

Lemma year_length (y m : Z) :
  0 <= m <= 11 ->
  365 <= DayFromYearMonth (y + 1 + m / 12) (m mod 12)
         - DayFromYearMonth y m <= 366.
Proof.
  intros Hm. apply month_cases in Hm. unfold DayFromYearMonth.
  repeat (destruct Hm as [-> | Hm]); try subst m; decide_tests; div_lia.
Qed.

(** The two periods in days, on a host with a fixed time-zone offset. *)
Lemma periods_in_days (env : Env) (offset : Z) :
  fixed_offset env offset ->
  (exists days, 28 <= days <= 31
                /\ one_month_later env = now env + days * msPerDay)
  /\ (exists days, 365 <= days <= 366
                   /\ one_year_later env = now env + days * msPerDay).
Proof.
  intros Hfixed.
  unfold one_month_later, one_year_later, setMonth, setFullYear, getMonth,
    getFullYear, LocalTime, UTC, MonthFromTime, YearFromTime, DateFromTime,
    MakeDate.
  rewrite !Hfixed. cbv zeta.
  set (t := now env + offset).
  pose proof (CivilFromDay_spec (Day t)) as Hcivil.
  destruct (CivilFromDay (Day t)) as [[y m] d]. cbn [fst snd].
  destruct Hcivil as (Hm & Hd & Hday).
  pose proof (month_length y m Hm) as Hmonth.
  pose proof (year_length y m Hm) as Hyear.
  assert (Ht : t = Day t * msPerDay + TimeWithinDay t).
  { unfold Day, TimeWithinDay. rewrite Z.mul_comm.
    apply Z.div_mod. discriminate. }
  unfold MakeDay. cbv zeta. split.
  - exists (DayFromYearMonth (y + (m + 1) / 12) ((m + 1) mod 12)
            - DayFromYearMonth y m).
    split; [exact Hmonth |]. subst t. lia.
  - exists (DayFromYearMonth (y + 1 + m / 12) (m mod 12)
            - DayFromYearMonth y m).
    split; [exact Hyear |]. subst t. lia.
Qed.

(** X5: on a host with a fixed time-zone offset, the period end the
    handler computes with [setMonth(getMonth() + 1)] lies a whole number of
    days after now, between 28 and 31, and the one it computes with
    [setFullYear(getFullYear() + 1)] lies 365 or 366 days after now. *)
Theorem period_lengths (env : Env) (offset : Z) :
  fixed_offset env offset ->
  (exists days, 28 <= days <= 31
                /\ one_month_later env = now env + days * msPerDay)
  /\ (exists days, 365 <= days <= 366
                   /\ one_year_later env = now env + days * msPerDay).
Proof. exact (periods_in_days env offset). Qed.

(** Around the leap day of 2024, on a host two hours east of UTC. *)
Lemma period_lengths_witness :
  let env := {| now := 1706659200000;
                LocalTZA := fun _ _ => 7200000;
                credit_usage_of := fun _ => None;
                user_subscriptions_of := fun _ => None;
                rejects := fun _ => false |} in
  (exists days, 28 <= days <= 31
                /\ one_month_later env = now env + days * msPerDay)
  /\ (exists days, 365 <= days <= 366
                   /\ one_year_later env = now env + days * msPerDay).
Proof.
  cbv zeta. apply (period_lengths _ 7200000). intros t utc. reflexivity.
Defined.

(* ================================================================== *)
(** ** Period ends lie ahead *)
(* ================================================================== *)

(** What follows a [throw] is not run. *)
Lemma only_after_throw {A B} (ok : Call -> Prop) (e : Error) (f : A -> M B) :
  issues_only ok (bind (throw e) f).
Proof. intros log H. exact H. Qed.

(** As [call_sites], closing the goal of each call site with [tac], and
    leaving out the call sites that follow a [throw]. *)
Ltac call_sites_by tac :=
  repeat first
    [ apply only_ret | apply only_throw | apply only_lift | apply only_when
    | match goal with
      | |- issues_only _ (bind (throw _) _) => apply only_after_throw
      | |- issues_only _ (bind (match ?x with _ => _ end) _) =>
          destruct x; cbv beta iota
      end
    | apply only_bind; [| intros ?]
    | match goal with
      | |- issues_only _ (match ?x with _ => _ end) => destruct x
      end
    | apply only_await; [solve [tac]] ].

Lemma le_if (a y m : Z) (b : bool) :
  (a <= y -> a <= m -> a <= if b then y else m)%Z.
Proof. destruct b; auto. Qed.

Lemma le_later_of (a m : Z) (existing : option Z) :
  (a <= m ->
   a <= match existing with
        | Some e => if (e >? m)%Z then e else m
        | None => m
        end)%Z.
Proof.
  intros H. destruct existing as [e |]; [| exact H].
  destruct (Z.gtb_spec e m); lia.
Qed.

(** The two periods, as the handler spells them out. *)
Lemma one_month_later_eq (env : Env) :
  setMonth (LocalTZA env) (now env) (getMonth (LocalTZA env) (now env) + 1)
  = one_month_later env.
Proof.
  exact (eq_refl (setMonth (LocalTZA env) (now env)
                           (getMonth (LocalTZA env) (now env) + 1))).
Qed.

Lemma one_year_later_eq (env : Env) :
  setFullYear (LocalTZA env) (now env)
              (getFullYear (LocalTZA env) (now env) + 1)
  = one_year_later env.
Proof.
  exact (eq_refl (setFullYear (LocalTZA env) (now env)
                              (getFullYear (LocalTZA env) (now env) + 1))).
Qed.

Ltac period_end_ahead Hmonth Hyear :=
  cbn [written_period_end CreditUsage.period_end
       UserSubscription.current_period_end];
  let x := fresh "x" in
  let Hx := fresh "Hx" in
  intros x Hx; try discriminate Hx; injection Hx as <-;
  first [ exact Hmonth
        | apply le_if; [exact Hyear | exact Hmonth]
        | apply le_later_of; exact Hmonth ].

(** X6: on a host with a fixed time-zone offset, every period end the
    handler writes, in whatever store call of whatever run, lies at least
    28 days after now. *)
Theorem written_period_ends_lie_ahead
    (env : Env) (offset : Z) (req : NextRequest) (c : Call) (e : Z) :
  fixed_offset env offset ->
  In c (calls (POST env req)) ->
  written_period_end c = Some e ->
  now env + 28 * msPerDay <= e.
Proof.
  intros Hfixed Hin He.
  assert (Hahead : now env + 28 * msPerDay <= one_month_later env
                   /\ now env + 28 * msPerDay <= one_year_later env).
  { destruct (periods_in_days env offset Hfixed)
      as [(dm & Hdm & ->) (dy & Hdy & ->)].
    assert (Hms : 0 < msPerDay) by reflexivity. nia. }
  destruct Hahead as [Hmonth Hyear].
  rewrite <- one_month_later_eq in Hmonth.
  rewrite <- one_year_later_eq in Hyear.
  assert (H : issues_only
                (fun c => forall e, written_period_end c = Some e ->
                                    now env + 28 * msPerDay <= e)
                (try_block env req)).
  { unfold try_block, checkout_completed, subscription_paid, subscription_ended.
    call_sites_by ltac:(period_end_ahead Hmonth Hyear). }
  specialize (H [] (Forall_nil _)). unfold POST in Hin.
  rewrite Forall_forall in H.
  destruct (try_block env req []) as [log [u | err]]; exact (H c Hin e He).
Qed.

(** The top-up of a row whose period ended long ago. *)
Lemma written_period_ends_lie_ahead_witness :
  let env := {| now := Sample.jan31;
                LocalTZA := utc_host;
                credit_usage_of := fun _ =>
                  Some {| CreditUsage.user_uuid := VStr "u1";
                          CreditUsage.credit_used := Num 3;
                          CreditUsage.credit_total := Num 10;
                          CreditUsage.period_start := Some 1500000000000;
                          CreditUsage.period_end := Some 1600000000000 |};
                user_subscriptions_of := fun _ => None;
                rejects := fun _ => false |} in
  let req := request (Sample.event "checkout.completed" "one-time"
                                   (VObj [("credit", VStr "50")])) in
  let update := updateCreditUsage {|
                  CreditUsage.user_uuid := VStr "u1";
                  CreditUsage.credit_used := Num 3;
                  CreditUsage.credit_total := Num 60;
                  CreditUsage.period_start := Some 1500000000000;
                  CreditUsage.period_end := Some 1709337600000 |} in
  In update (calls (POST env req))
  /\ now env + 28 * msPerDay <= 1709337600000.
Proof.
  intros env req update.
  assert (Hin : In update (calls (POST env req)))
    by (right; left; reflexivity).
  split; [exact Hin |].
  exact (written_period_ends_lie_ahead env 0 req update 1709337600000
           (fun _ _ => eq_refl) Hin eq_refl).
Defined.

(* ================================================================== *)
(** ** Falsy metadata *)
(* ================================================================== *)

Lemma js_or_falsy (v d : JsVal) : truthy v = false -> js_or v d = d.
Proof. intros H. unfold js_or. rewrite H. reflexivity. Qed.

Lemma falsy_is_not (v : JsVal) (c : ascii) (s : string) :
  truthy v = false -> strict_eq_str v (String c s) = false.
Proof.
  intros H. destruct v; try reflexivity. cbn [truthy strict_eq_str] in *.
  apply negb_false_iff, String.eqb_eq in H. subst. reflexivity.
Qed.

(** X7: the defaults replace every falsy value, not the missing ones only.
    For an event whose [object.product] can be read (and, on the recurring
    branch, whose metadata is present) and each of the fields credit,
    subscriptionPlanId, interval and amount: if the value of the field is
    [undefined], [null], [false], [0] or the empty string, the handler issues
    the same store calls, logs the same and answers the same as on the event
    that carries the default in that field.  A credit of 0 grants the
    default credit. *)
Theorem falsy_metadata_field_reads_as_default
    (env : Env) (w : JsVal) (k default : string) :
  has_product w = true ->
  is_one_time w = true \/ has_metadata w = true ->
  In (k, default) (metadata_defaults w) ->
  truthy (metadata_field w k) = false ->
  POST env (request w)
  = POST env (request (with_metadata_field w k (VStr default))).
Proof.
  intros Hp Hmeta Hin Hfalsy.
  pose proof (with_metadata_has_product w k (VStr default) Hp) as Hp'.
  pose proof (fun d => js_or_falsy _ d Hfalsy) as Hor.
  pose proof (falsy_is_not _ "y" "ear" Hfalsy) as Hyear.
  unfold metadata_defaults, is_recurring, is_one_time in *.
  rewrite Hp in *. cbn [andb In] in *.
  run_handler. autorewrite with with_metadata.
  destruct (strict_eq_str (billing_type_of w) "recurring") eqn:Hbt;
    cbn [negb] in *; cbv beta iota zeta.
  - (* recurring *)
    destruct Hmeta as [Hmeta | Hmeta]; [discriminate Hmeta |]. rewrite Hmeta.
    destruct Hin as [Hin | [Hin | [Hin | [Hin | []]]]];
      injection Hin as <- <-;
      cbn [String.eqb Ascii.eqb Bool.eqb]; rewrite ?Hor, ?Hyear;
      rewrite ?js_or_same;
      cbn [strict_eq_str String.eqb Ascii.eqb Bool.eqb];
      reflexivity.
  - (* one-time *)
    destruct Hin as [Hin | [Hin | [Hin | [Hin | []]]]];
      injection Hin as <- <-;
      cbn [String.eqb Ascii.eqb Bool.eqb]; rewrite ?Hor;
      rewrite ?js_or_same;
      cbn [strict_eq_str String.eqb Ascii.eqb Bool.eqb];
      reflexivity.
Qed.

(** A top-up whose metadata says credit 0 behaves as one with credit
    "100". *)
Lemma falsy_metadata_field_reads_as_default_witness :
  POST Sample.stocked
       (request (Sample.event "checkout.completed" "one-time"
                              (VObj [("credit", VNum 0)])))
  = POST Sample.stocked
         (request (with_metadata_field
                     (Sample.event "checkout.completed" "one-time"
                                   (VObj [("credit", VNum 0)]))
                     "credit" (VStr "100"))).
Proof.
  exact (falsy_metadata_field_reads_as_default
           Sample.stocked
           (Sample.event "checkout.completed" "one-time"
                         (VObj [("credit", VNum 0)]))
           "credit" "100"
           eq_refl (or_introl eq_refl) (or_introl eq_refl) eq_refl).
Defined.

(* ================================================================== *)
(** ** The store calls within reach *)
(* ================================================================== *)

Lemma bind_ret {A B} (a : A) (f : A -> M B) : bind (ret a) f = f a.
Proof. reflexivity. Qed.

Lemma bind_lift_Ok {A B} (a : A) (f : A -> M B) : bind (lift (Ok a)) f = f a.
Proof. reflexivity. Qed.

(** The branch an event takes, once its billing type has been read. *)
Lemma try_block_branch (env : Env) (w : JsVal) :
  has_product w = true ->
  try_block env (request w)
  = if negb (strict_eq_str (billing_type_of w) "recurring")
    then when (strict_eq_str (eventType_of w) "checkout.completed")
              (checkout_completed env w)
    else (when (strict_eq_str (eventType_of w) "subscription.paid")
               (subscription_paid env w) ;;
          when (strict_eq_str (eventType_of w) "subscription.canceled")
               (subscription_ended env CANCELLED w) ;;
          when (strict_eq_str (eventType_of w) "subscription.expired")
               (subscription_ended env EXPIRED w))%handler.
Proof.
  intros Hp. unfold try_block, request. cbn [json].
  rewrite bind_ret, (read_billing_type w Hp), bind_lift_Ok.
  rewrite (read_eventType w Hp), bind_lift_Ok. reflexivity.
Qed.

Lemma try_block_no_product (env : Env) (w : JsVal) :
  has_product w = false -> fst (try_block env (request w) []) = [].
Proof.
  intros Hp. destruct (read_billing_type_throws w Hp) as [k Hk].
  unfold try_block, request. cbn [json].
  rewrite bind_ret, Hk. reflexivity.
Qed.

(** X9: the billing type of the product decides which store calls are
    within reach.  On a product that is not recurring a run reads the
    credit usage, updates it and books a payment, and issues no other call:
    it never creates a credit-usage row and never touches a subscription.
    On a recurring product a run never books a payment. *)
Theorem store_calls_by_billing_type (env : Env) (w : JsVal) (c : Call) :
  In c (calls (POST env (request w))) ->
  if strict_eq_str (billing_type_of w) "recurring"
  then recurring_call c = true
  else one_time_call c = true.
Proof.
  intros Hin.
  assert (Hlog : In c (fst (try_block env (request w) []))).
  { unfold POST in Hin.
    destruct (try_block env (request w) []) as [log [u | e]]; exact Hin. }
  clear Hin.
  destruct (has_product w) eqn:Hp;
    [| rewrite (try_block_no_product env w Hp) in Hlog; destruct Hlog].
  rewrite (try_block_branch env w Hp) in Hlog.
  destruct (strict_eq_str (billing_type_of w) "recurring"); cbn [negb] in Hlog.
  - assert (H : issues_only (fun c => recurring_call c = true)
                  (when (strict_eq_str (eventType_of w) "subscription.paid")
                        (subscription_paid env w) ;;
                   when (strict_eq_str (eventType_of w) "subscription.canceled")
                        (subscription_ended env CANCELLED w) ;;
                   when (strict_eq_str (eventType_of w) "subscription.expired")
                        (subscription_ended env EXPIRED w))%handler).
    { unfold subscription_paid, subscription_ended.
      call_sites_by reflexivity. }
    specialize (H [] (Forall_nil _)). rewrite Forall_forall in H.
    exact (H c Hlog).
  - assert (H : issues_only (fun c => one_time_call c = true)
                  (when (strict_eq_str (eventType_of w) "checkout.completed")
                        (checkout_completed env w))).
    { unfold checkout_completed. call_sites_by reflexivity. }
    specialize (H [] (Forall_nil _)). rewrite Forall_forall in H.
    exact (H c Hlog).
Qed.

(** The payment booked by a top-up. *)
Lemma store_calls_by_billing_type_witness :
  let w := Sample.event "checkout.completed" "one-time"
                        (VObj [("credit", VStr "50")]) in
  exists c, In c (calls (POST Sample.stocked (request w)))
            /\ one_time_call c = true.
Proof.
  intros w.
  exists (createPaymentHistory {|
            PaymentHistory.user_uuid := VStr "u1";
            PaymentHistory.subscription_plan_id := Num 1;
            PaymentHistory.amount := float_of_string "0";
            PaymentHistory.interval := VStr "month";
            PaymentHistory.payment_status := "completed";
            PaymentHistory.payment_intent_id := VStr "pay_1" |}).
  assert (Hin : In (createPaymentHistory {|
            PaymentHistory.user_uuid := VStr "u1";
            PaymentHistory.subscription_plan_id := Num 1;
            PaymentHistory.amount := float_of_string "0";
            PaymentHistory.interval := VStr "month";
            PaymentHistory.payment_status := "completed";
            PaymentHistory.payment_intent_id := VStr "pay_1" |})
                   (calls (POST Sample.stocked (request w))))
    by (right; right; left; reflexivity).
  split; [exact Hin |].
  exact (store_calls_by_billing_type Sample.stocked w _ Hin).
Defined.

(* ================================================================== *)
(** ** The number of store calls *)
(* ================================================================== *)

Section Counting.
Variable env : Env.
Variable p : Call -> bool.

Lemma at_most_ret {A} (a : A) : at_most p 0 (ret a).
Proof. intros log. cbn [ret fst]. lia. Qed.

Lemma at_most_throw {A} (e : Error) : at_most p 0 (@throw A e).
Proof. intros log. cbn [throw fst]. lia. Qed.

Lemma at_most_lift {A} (r : Result A) : at_most p 0 (lift r).
Proof. intros log. cbn [lift fst]. lia. Qed.

Lemma at_most_await {A} (c : Call) (a : A) : at_most p 1 (await env c a).
Proof.
  intros log. unfold await. cbn [fst]. rewrite filter_app, length_app.
  cbn [filter]. destruct (p c); cbn [length]; lia.
Qed.

Lemma at_most_read {A} (c : Call) (a : A) :
  p c = false -> at_most p 0 (await env c a).
Proof.
  intros Hc log. unfold await. cbn [fst]. rewrite filter_app, length_app.
  cbn [filter]. rewrite Hc. cbn [length]. lia.
Qed.

Lemma at_most_bind {A B} (n k : nat) (m : M A) (f : A -> M B) :
  at_most p n m -> (forall a, at_most p k (f a)) -> at_most p (n + k) (bind m f).
Proof.
  intros Hm Hf log. unfold bind. specialize (Hm log).
  destruct (m log) as [log' [a | e]]; cbn [fst] in *.
  - specialize (Hf a log'). lia.
  - lia.
Qed.

Lemma at_most_when (n : nat) (cond : bool) (body : M unit) :
  at_most p n body -> at_most p n (when cond body).
Proof.
  intros H. destruct cond; [exact H |]. intros log. cbn [when ret fst]. lia.
Qed.

Lemma at_most_more {A} (n k : nat) (m : M A) :
  at_most p n m -> (n <= k)%nat -> at_most p k m.
Proof. intros H Hle log. specialize (H log). lia. Qed.
End Counting.

(** Add up the calls of a computation, call site by call site. *)
Ltac count_calls :=
  repeat first
    [ apply at_most_ret | apply at_most_throw | apply at_most_lift
    | apply at_most_bind; [| intros ?]
    | match goal with
      | |- at_most _ _ (match ?x with _ => _ end) => destruct x
      end
    | apply at_most_read; [reflexivity]
    | apply at_most_await ].

Ltac count_up := eapply at_most_more; [count_calls | cbn; lia].

Lemma checkout_completed_calls (env : Env) (w : JsVal) :
  at_most any_call 3 (checkout_completed env w)
  /\ at_most is_write 2 (checkout_completed env w).
Proof. unfold checkout_completed. split; count_up. Qed.

Lemma subscription_paid_calls (env : Env) (w : JsVal) :
  at_most any_call 4 (subscription_paid env w)
  /\ at_most is_write 2 (subscription_paid env w).
Proof. unfold subscription_paid. split; count_up. Qed.

Lemma subscription_ended_calls
    (env : Env) (status : UserSubscriptionStatusEnum) (w : JsVal) :
  at_most any_call 1 (subscription_ended env status w)
  /\ at_most is_write 1 (subscription_ended env status w).
Proof. unfold subscription_ended. split; count_up. Qed.

(** At most one of the tests of the event type succeeds, so at most one
    branch of the handler runs. *)
Lemma try_block_calls (env : Env) (req : NextRequest) (p : Call -> bool) (n : nat) :
  (forall w, at_most p n (checkout_completed env w)) ->
  (forall w, at_most p n (subscription_paid env w)) ->
  (forall status w, at_most p n (subscription_ended env status w)) ->
  at_most p n (try_block env req).
Proof.
  intros Hcheckout Hpaid Hended. unfold try_block.
  apply at_most_more with (n := (0 + (0 + (0 + n)))%nat); [| lia].
  apply at_most_bind; [destruct (json req); count_calls | intros w].
  apply at_most_bind; [count_calls | intros billing_type].
  apply at_most_bind; [count_calls | intros eventType].
  cbv zeta.
  destruct (negb (strict_eq_str billing_type "recurring")).
  { apply at_most_when, Hcheckout. }
  destruct eventType as [| | b | z | s | elems | members];
    try solve [ apply at_most_more with (n := (0 + (0 + 0))%nat); [| lia];
                cbn [strict_eq_str when]; count_calls ].
  destruct (String.eqb_spec s "subscription.paid") as [-> | Hs1].
  { apply at_most_more with (n := (n + (0 + 0))%nat); [| lia].
    apply at_most_bind; [apply at_most_when, Hpaid | intros _].
    cbn [strict_eq_str String.eqb Ascii.eqb Bool.eqb when]. count_calls. }
  destruct (String.eqb_spec s "subscription.canceled") as [-> | Hs2].
  { apply at_most_more with (n := (0 + (n + 0))%nat); [| lia].
    cbn [strict_eq_str String.eqb Ascii.eqb Bool.eqb when].
    apply at_most_bind; [count_calls | intros _].
    apply at_most_bind; [apply Hended | intros _]. count_calls. }
  apply at_most_more with (n := (0 + (0 + n))%nat); [| lia].
  cbn [strict_eq_str].
  apply String.eqb_neq in Hs1, Hs2. rewrite Hs1, Hs2. cbn [when].
  apply at_most_bind; [count_calls | intros _].
  apply at_most_bind; [count_calls | intros _].
  apply at_most_when, Hended.
Qed.

Lemma filter_any_call (log : list Call) : filter any_call log = log.
Proof.
  induction log as [| c log IH]; [reflexivity |].
  cbn [filter any_call]. rewrite IH. reflexivity.
Qed.

(** The calls of a run are those of its [try] block. *)
Lemma calls_POST (env : Env) (req : NextRequest) :
  calls (POST env req) = fst (try_block env req []).
Proof.
  unfold POST. destruct (try_block env req []) as [log [u | e]]; reflexivity.
Qed.

(** Nothing that issues a call follows a handler. *)
Lemma calls_then_nothing (m : M unit) (log : list Call) :
  fst (bind m (fun _ => bind (ret tt) (fun _ => ret tt)) log) = fst (m log)
  /\ fst (bind m (fun _ => ret tt) log) = fst (m log).
Proof.
  unfold bind, ret. destruct (m log) as [log' [u | e]]; split; reflexivity.
Qed.

(** At most one of the tests of the event type succeeds: the calls of a
    run are the calls of one handler, run alone, or there is none. *)
Lemma one_branch_runs (env : Env) (req : NextRequest) :
  calls (POST env req) = []
  \/ exists w handler,
       json req = Some w /\ In handler (branches env w)
       /\ calls (POST env req) = fst (handler []).
Proof.
  rewrite calls_POST. destruct req as [[w |]]; [| left; reflexivity].
  change {| json := Some w |} with (request w).
  destruct (has_product w) eqn:Hp;
    [| left; apply try_block_no_product, Hp].
  rewrite (try_block_branch env w Hp).
  destruct (strict_eq_str (billing_type_of w) "recurring"); cbn [negb].
  2: { destruct (strict_eq_str (eventType_of w) "checkout.completed");
      cbn [when]; [| left; reflexivity].
    right. exists w, (checkout_completed env w).
    split; [reflexivity | split; [left; reflexivity | reflexivity]]. }
  destruct (eventType_of w) as [| | b | z | s | elems | members];
    try (left; reflexivity).
  cbn [strict_eq_str].
  destruct (String.eqb_spec s "subscription.paid") as [-> | Hs1].
  { right. exists w, (subscription_paid env w).
    split; [reflexivity | split; [right; left; reflexivity |]].
    cbn [String.eqb Ascii.eqb Bool.eqb when].
    apply calls_then_nothing. }
  destruct (String.eqb_spec s "subscription.canceled") as [-> | Hs2].
  { right. exists w, (subscription_ended env CANCELLED w).
    split; [reflexivity | split; [right; right; left; reflexivity |]].
    cbn [String.eqb Ascii.eqb Bool.eqb when]. rewrite bind_ret.
    apply calls_then_nothing. }
  destruct (String.eqb_spec s "subscription.expired") as [-> | Hs3];
    cbn [when]; [| left; reflexivity].
  right. exists w, (subscription_ended env EXPIRED w).
  split; [reflexivity | split; [right; right; right; left; reflexivity |]].
  rewrite !bind_ret. reflexivity.
Qed.

(** X8: whatever the request, the stores and the failures, one run of the
    handler issues at most four store calls, and at most two of them
    write; and at most one branch of the event-type tests runs: the calls
    of the run are the calls of one of the four handlers, run alone from
    the empty log, unless the run issues no call at all. *)
Theorem at_most_four_store_calls (env : Env) (req : NextRequest) :
  (length (calls (POST env req)) <= 4)%nat
  /\ (length (filter is_write (calls (POST env req))) <= 2)%nat
  /\ (calls (POST env req) = []
      \/ exists w handler,
           json req = Some w /\ In handler (branches env w)
           /\ calls (POST env req) = fst (handler [])).
Proof.
  assert (Hall : at_most any_call 4 (try_block env req)).
  { apply try_block_calls; intros;
      [ apply at_most_more with (n := 3%nat); [| lia];
        apply checkout_completed_calls
      | apply subscription_paid_calls
      | apply at_most_more with (n := 1%nat); [| lia];
        apply subscription_ended_calls ]. }
  assert (Hwrite : at_most is_write 2 (try_block env req)).
  { apply try_block_calls; intros;
      [ apply checkout_completed_calls
      | apply subscription_paid_calls
      | apply at_most_more with (n := 1%nat); [| lia];
        apply subscription_ended_calls ]. }
  specialize (Hall []). specialize (Hwrite []).
  rewrite filter_any_call in Hall.
  split; [| split; [| apply one_branch_runs]];
    rewrite calls_POST; assumption.
Qed.

(** The bounds are reached: the first payment of a subscription issues four
    store calls, two of them writes. *)
Example four_store_calls_reached :
  let run := POST Sample.fresh
                  (request (Sample.event "subscription.paid" "recurring"
                                         (VObj [("userId", VStr "u2")]))) in
  length (calls run) = 4%nat /\ length (filter is_write (calls run)) = 2%nat.
Proof. split; reflexivity. Qed.

(* ================================================================== *)
(** ** Numeric credits *)
(* ================================================================== *)

(** The decimal numeral of an integer is not the empty string. *)
Lemma decimal_not_empty (n : Z) :
  String.eqb (NilZero.string_of_int (Z.to_int n)) "" = false.
Proof.
  destruct (Z.to_int n) as [d | d]; cbn [NilZero.string_of_int];
    [destruct d | ]; reflexivity.
Qed.

(** A credit written as a number, or as the decimal numeral of one, is read
    as that number. *)
Lemma parseInt_numeric_credit (credit : JsVal) (n : Z) (default : JsVal) :
  (credit = VNum n /\ n <> 0)
  \/ credit = VStr (NilZero.string_of_int (Z.to_int n)) ->
  parseInt (js_or credit default) = Some (Num n).
Proof.
  intros [[-> Hn] | ->]; unfold js_or; cbn [truthy].
  - apply Z.eqb_neq in Hn. rewrite Hn. apply parseInt_of_number.
  - rewrite decimal_not_empty. exact (parseInt_of_number n).
Qed.

(** X10: a one-time top-up adds the number its metadata names.  For a
    user whose row has a numeric total, and a credit given as a number other
    than 0 or as a decimal numeral (the total, the credit and their sum
    being safe integers), the second store call of the run is the
    [updateCreditUsage] of a row whose total is the old total plus that
    number, with the credits used unchanged. *)
Theorem numeric_credit_is_added
    (env : Env) (w : JsVal) (row : CreditUsage.t) (total n : Z) :
  is_one_time w = true ->
  eventType_of w = VStr "checkout.completed" ->
  has_customer w = true ->
  credit_usage_of env (request_id_of w) = Some row ->
  rejects env (getCreditUsageByUserId (request_id_of w)) = false ->
  CreditUsage.credit_total row = Num total ->
  safe_integer total -> safe_integer n -> safe_integer (total + n) ->
  (metadata_field w "credit" = VNum n /\ n <> 0)
  \/ metadata_field w "credit" = VStr (NilZero.string_of_int (Z.to_int n)) ->
  exists cu,
    nth_error (calls (POST env (request w))) 1 = Some (updateCreditUsage cu)
    /\ CreditUsage.credit_total cu = Num (total + n)
    /\ CreditUsage.credit_used cu = CreditUsage.credit_used row.
Proof.
  intros Hone Het Hcus Hrow Hread Htotal _ _ _ Hcredit.
  pose proof (parseInt_numeric_credit _ n (VStr "100") Hcredit) as Hparse.
  unfold is_one_time in Hone. split_bool_hyps.
  run_handler.
  match goal with H : strict_eq_str _ _ = false |- _ => rewrite H end.
  rewrite Het, Hcus.
  cbn [strict_eq_str String.eqb Ascii.eqb Bool.eqb negb]; cbv beta iota zeta.
  rewrite Hread, Hrow. cbv beta iota zeta. cbn [app].
  rewrite Hparse, Htotal, !one_month_later_eq. cbn [converted num_add].
  cbv beta iota zeta.
  exists {| CreditUsage.user_uuid := request_id_of w;
            CreditUsage.credit_used := CreditUsage.credit_used row;
            CreditUsage.credit_total := Num (total + n);
            CreditUsage.period_start := CreditUsage.period_start row;
            CreditUsage.period_end :=
              Some match CreditUsage.period_end row with
                   | Some e => if e >? one_month_later env
                               then e else one_month_later env
                   | None => one_month_later env
                   end |}.
  split; [| split; reflexivity].
  repeat (match goal with
          | |- context [rejects ?e ?c] => destruct (rejects e c)
          | |- context [converted ?r] => destruct r
          end; cbn [converted]; cbv beta iota zeta;
          cbn [app calls nth_error]);
    reflexivity.
Qed.

(** A top-up of "50" on a row with a total of 10: the total becomes 60. *)
Lemma numeric_credit_is_added_witness :
  let w := Sample.event "checkout.completed" "one-time"
                        (VObj [("credit", VStr "50")]) in
  exists cu,
    nth_error (calls (POST Sample.stocked (request w))) 1
    = Some (updateCreditUsage cu)
    /\ CreditUsage.credit_total cu = Num 60
    /\ CreditUsage.credit_used cu = Num 3.
Proof.
  intros w.
  apply (numeric_credit_is_added Sample.stocked w (Sample.row "u1") 10 50);
    try reflexivity; try (unfold safe_integer; lia).
  right. reflexivity.
Defined.

(* ================================================================== *)
(** ** Metadata that cannot be converted *)
(* ================================================================== *)

(** X11: a top-up whose metadata credit cannot be converted to a string
    (an object with a member [toString], or an array that holds one) ends
    at the [parseInt] of line 138: the row has been read, nothing is
    written, the TypeError is logged and the response is the 500
    response. *)
Theorem unconvertible_credit_stops_top_up
    (env : Env) (w : JsVal) (row : CreditUsage.t) :
  is_one_time w = true ->
  eventType_of w = VStr "checkout.completed" ->
  has_customer w = true ->
  credit_usage_of env (request_id_of w) = Some row ->
  rejects env (getCreditUsageByUserId (request_id_of w)) = false ->
  parseInt (js_or (metadata_field w "credit") (VStr "100")) = None ->
  POST env (request w)
  = {| calls := [getCreditUsageByUserId (request_id_of w)];
       logged := Some not_primitive;
       response := failure_response |}.
Proof.
  intros Hone Het Hcus Hrow Hread Hcredit.
  unfold is_one_time in Hone. split_bool_hyps.
  run_handler.
  match goal with H : strict_eq_str _ _ = false |- _ => rewrite H end.
  rewrite Het, Hcus.
  cbn [strict_eq_str String.eqb Ascii.eqb Bool.eqb negb]; cbv beta iota zeta.
  rewrite Hread, Hrow. cbv beta iota zeta. cbn [app].
  rewrite Hcredit. reflexivity.
Qed.

(** A credit that is an object with a member [toString]. *)
Lemma unconvertible_credit_stops_top_up_witness :
  POST Sample.stocked
       (request (Sample.event "checkout.completed" "one-time"
                   (VObj [("credit", VObj [("toString", VNum 1)])])))
  = {| calls := [getCreditUsageByUserId (VStr "u1")];
       logged := Some not_primitive;
       response := failure_response |}.
Proof.
  exact (unconvertible_credit_stops_top_up
           Sample.stocked
           (Sample.event "checkout.completed" "one-time"
              (VObj [("credit", VObj [("toString", VNum 1)])]))
           (Sample.row "u1")
           eq_refl eq_refl eq_refl eq_refl eq_refl eq_refl).
Defined.

(** X12: a subscription payment whose metadata credit cannot be converted
    to a string ends at the [parseInt] of lines 223 and 231, after the
    subscription has been written: when no store call fails and the plan id
    is converted, the subscription is created or updated and the credit
    usage is read, but not written, and the response is the 500 response.
    Nothing undoes the write of the subscription. *)
Theorem unconvertible_credit_leaves_subscription_written
    (env : Env) (w : JsVal) (plan : JsNum) :
  is_recurring w = true ->
  eventType_of w = VStr "subscription.paid" ->
  has_customer w = true ->
  has_metadata w = true ->
  (forall c, rejects env c = false) ->
  parseInt (js_or (metadata_field w "subscriptionPlanId") (VStr "1"))
  = Some plan ->
  safe_number plan ->
  parseInt (js_or (metadata_field w "credit") (VStr "1000")) = None ->
  POST env (request w)
  = {| calls :=
         [getUserSubscriptionByUserId (metadata_field w "userId");
          match user_subscriptions_of env (metadata_field w "userId") with
          | None | Some [] =>
              createUserSubscription (paid_subscription env w plan)
          | Some (_ :: _) =>
              updateUserSubscription (paid_subscription env w plan)
          end;
          getCreditUsageByUserId (metadata_field w "userId")];
       logged := Some not_primitive;
       response := failure_response |}.
Proof.
  intros Hrec Het Hcus Hmd Hquiet Hplan _ Hcredit.
  unfold is_recurring in Hrec. split_bool_hyps.
  unfold paid_subscription, subscription_period_end,
    one_year_later, one_month_later.
  run_handler.
  match goal with H : strict_eq_str _ _ = true |- _ => rewrite H end.
  rewrite Het, Hcus, Hmd.
  cbn [strict_eq_str String.eqb Ascii.eqb Bool.eqb negb]; cbv beta iota zeta.
  rewrite ?Hquiet, Hplan, Hcredit; cbn [converted]; cbv beta iota zeta.
  destruct (user_subscriptions_of env (metadata_field w "userId")) as [[| s rest] |];
    cbv beta iota zeta; rewrite ?Hquiet; cbv beta iota zeta;
    rewrite ?Hquiet; reflexivity.
Qed.

(** A first subscription payment whose credit is an object with a member
    [toString]: the subscription is created, the credit usage is not. *)
Lemma unconvertible_credit_leaves_subscription_written_witness :
  POST Sample.fresh
       (request (Sample.event "subscription.paid" "recurring"
                   (VObj [("userId", VStr "u2");
                          ("credit", VObj [("toString", VNum 1)])])))
  = {| calls :=
         [getUserSubscriptionByUserId (VStr "u2");
          createUserSubscription {|
            UserSubscription.user_uuid := VStr "u2";
            UserSubscription.subscription_plan_id := Some (Num 1);
            UserSubscription.status := ACTIVE;
            UserSubscription.current_period_start := Some 1706659200000;
            UserSubscription.current_period_end := Some 1709337600000;
            UserSubscription.stripe_subscription_id := VStr "pay_1";
            UserSubscription.stripe_customer_id := Some (VStr "cus_1") |};
          getCreditUsageByUserId (VStr "u2")];
       logged := Some not_primitive;
       response := failure_response |}.
Proof.
  refine (unconvertible_credit_leaves_subscription_written
            Sample.fresh
            (Sample.event "subscription.paid" "recurring"
               (VObj [("userId", VStr "u2");
                      ("credit", VObj [("toString", VNum 1)])]))
            (Num 1)
            eq_refl eq_refl eq_refl eq_refl (fun _ => eq_refl) eq_refl _
            eq_refl);
    vm_compute; split; discriminate.
Defined.

(* ================================================================== *)
(** ** Subscription events without metadata *)
(* ================================================================== *)

(** X13: on a recurring product, each of the three handled events reads
    [metadata.userId] first and without a guard: when the event has no
    metadata (it is missing or null) the run issues no store call, logs the
    TypeError and answers with the 500 response. *)
Theorem subscription_event_without_metadata_fails
    (env : Env) (w : JsVal) (eventType : string) :
  is_recurring w = true ->
  In eventType
     ["subscription.paid"; "subscription.canceled"; "subscription.expired"] ->
  eventType_of w = VStr eventType ->
  has_metadata w = false ->
  POST env (request w)
  = {| calls := [];
       logged := Some (TypeError "userId");
       response := failure_response |}.
Proof.
  intros Hrec Hin Het Hmd.
  unfold is_recurring in Hrec. split_bool_hyps.
  run_handler.
  match goal with H : strict_eq_str _ _ = true |- _ => rewrite H end.
  rewrite Het, Hmd. cbn [negb]. cbv beta iota zeta.
  destruct Hin as [<- | [<- | [<- | []]]];
    cbn [strict_eq_str String.eqb Ascii.eqb Bool.eqb]; reflexivity.
Qed.

(** A cancellation without metadata. *)
Lemma subscription_event_without_metadata_fails_witness :
  POST Sample.stocked
       (request (Sample.event_without_metadata "subscription.canceled"
                                               "recurring"))
  = {| calls := [];
       logged := Some (TypeError "userId");
       response := failure_response |}.
Proof.
  exact (subscription_event_without_metadata_fails
           Sample.stocked
           (Sample.event_without_metadata "subscription.canceled" "recurring")
           "subscription.canceled"
           eq_refl (or_intror (or_introl eq_refl)) eq_refl eq_refl).
Defined.
